(** * GLContextEGLWayland: the Wayland EGL context provider of the GS OpenGL renderer

    A shallow embedding of [pcsx2/GS/Renderers/OpenGL/GLContextEGLWayland.cpp].

    The class talks to four outside parties: the dynamic loader ([dlopen],
    [dlsym], [dlclose]), the three entry points resolved from
    [libwayland-egl.so.1] and called through function pointers, the EGL
    platform layer, and the base class [GLContextEGL].  Every call that leaves
    the class is recorded as an [Event], with its arguments and its return
    value, so that ordering claims become statements about the list of events
    a method emits.  The answers of the outside world are given by an [Env],
    whose functions read the whole history of events so far.

    The events a method emits are listed in the order they happen.  A
    history, the argument of the [Env] functions, has the latest event
    first. *)

From Stdlib Require Import ZArith List String Ascii Bool Lia.
From Stdlib Require Import DecimalString HexadecimalString DecimalZ HexadecimalZ.
Import ListNotations.
Open Scope string_scope.
Open Scope list_scope.
Open Scope Z_scope.

Set Implicit Arguments.

(** ** Data model *)

(** Opaque handles and function pointers are addresses; [nullptr] is [0]. *)
Definition ptr := Z.
Definition nullptr : ptr := 0.

(** [if (p)] on a pointer. *)
Definition is_set (p : ptr) : bool := negb (p =? 0).

(** EGL's [EGL_NO_DISPLAY] and [EGL_NO_SURFACE] are null handles. *)
Definition EGL_NO_DISPLAY : ptr := 0.
Definition EGL_NO_SURFACE : ptr := 0.
Definition EGL_PLATFORM_WAYLAND_KHR : Z := 0x31D8.

(** [<dlfcn.h>] on Linux. *)
Definition RTLD_NOW : Z := 2.
Definition RTLD_GLOBAL : Z := 256.

Definition WAYLAND_EGL_MODNAME : string := "libwayland-egl.so.1".

(** The conversion of a [u32] to [int] at a call whose parameter is [int]:
    the value keeps its 32 bits and is read as a signed number.  The three
    function pointers have the signatures of the libwayland-egl entry points
    they are resolved from, whose sizes and offsets are [int]; the sizes in
    [WindowInfo] and the arguments of [ResizeSurface] are [u32]. *)
Definition int_of_u32 (n : Z) : Z :=
  let m := n mod 2 ^ 32 in
  if m <? 2 ^ 31 then m else m - 2 ^ 32.

(** The fields of [WindowInfo] this file reads. *)
Record WindowInfo := {
  display_connection : ptr;
  window_handle : ptr;
  surface_width : Z;
  surface_height : Z
}.

(** [GLContext::Version], handed through to the base class untouched. *)
Record Version := {
  major_version : Z;
  minor_version : Z
}.

(** The state of the base class [GLContextEGL] that this file reads or writes
    ([m_wi], [m_display], [m_context], [m_version], [m_supports_surfaceless])
    together with the handles the base class keeps for itself. *)
Record GLContextEGL := {
  m_wi : WindowInfo;
  m_display : ptr;
  m_surface : ptr;
  m_context : ptr;
  m_config : ptr;
  m_version : Version;
  m_supports_surfaceless : bool
}.

(** The three function pointers resolved from the shim library. *)
Record ShimFunctionTable := {
  fn_create : ptr;
  fn_destroy : ptr;
  fn_resize : ptr
}.

(** An object of class [GLContextEGLWayland]. *)
Record GLContextEGLWayland := {
  base : GLContextEGL;
  m_wl_window : ptr;
  m_wl_module : ptr;
  m_wl_egl_window_create : ptr;
  m_wl_egl_window_destroy : ptr;
  m_wl_egl_window_resize : ptr
}.

Definition set_base (b : GLContextEGL) (c : GLContextEGLWayland) :=
  {| base := b; m_wl_window := m_wl_window c; m_wl_module := m_wl_module c;
     m_wl_egl_window_create := m_wl_egl_window_create c;
     m_wl_egl_window_destroy := m_wl_egl_window_destroy c;
     m_wl_egl_window_resize := m_wl_egl_window_resize c |}.

Definition set_m_wl_window (w : ptr) (c : GLContextEGLWayland) :=
  {| base := base c; m_wl_window := w; m_wl_module := m_wl_module c;
     m_wl_egl_window_create := m_wl_egl_window_create c;
     m_wl_egl_window_destroy := m_wl_egl_window_destroy c;
     m_wl_egl_window_resize := m_wl_egl_window_resize c |}.

Definition set_m_wl_module (m : ptr) (c : GLContextEGLWayland) :=
  {| base := base c; m_wl_window := m_wl_window c; m_wl_module := m;
     m_wl_egl_window_create := m_wl_egl_window_create c;
     m_wl_egl_window_destroy := m_wl_egl_window_destroy c;
     m_wl_egl_window_resize := m_wl_egl_window_resize c |}.

Definition set_m_wl_egl_window_create (f : ptr) (c : GLContextEGLWayland) :=
  {| base := base c; m_wl_window := m_wl_window c; m_wl_module := m_wl_module c;
     m_wl_egl_window_create := f;
     m_wl_egl_window_destroy := m_wl_egl_window_destroy c;
     m_wl_egl_window_resize := m_wl_egl_window_resize c |}.

Definition set_m_wl_egl_window_destroy (f : ptr) (c : GLContextEGLWayland) :=
  {| base := base c; m_wl_window := m_wl_window c; m_wl_module := m_wl_module c;
     m_wl_egl_window_create := m_wl_egl_window_create c;
     m_wl_egl_window_destroy := f;
     m_wl_egl_window_resize := m_wl_egl_window_resize c |}.

Definition set_m_wl_egl_window_resize (f : ptr) (c : GLContextEGLWayland) :=
  {| base := base c; m_wl_window := m_wl_window c; m_wl_module := m_wl_module c;
     m_wl_egl_window_create := m_wl_egl_window_create c;
     m_wl_egl_window_destroy := m_wl_egl_window_destroy c;
     m_wl_egl_window_resize := f |}.

Definition set_m_display (d : ptr) (b : GLContextEGL) :=
  {| m_wi := m_wi b; m_display := d; m_surface := m_surface b;
     m_context := m_context b; m_config := m_config b;
     m_version := m_version b;
     m_supports_surfaceless := m_supports_surfaceless b |}.

Definition set_m_supports_surfaceless (s : bool) (b : GLContextEGL) :=
  {| m_wi := m_wi b; m_display := m_display b; m_surface := m_surface b;
     m_context := m_context b; m_config := m_config b;
     m_version := m_version b;
     m_supports_surfaceless := s |}.

(** ** Events *)

(** Entry points of the base class [GLContextEGL] that this file calls. *)
Inductive BaseCall :=
| BC_Initialize (versions_to_try : list Version) (error : ptr)
| BC_CreateContextAndSurface (version : Version) (share_context : ptr)
    (make_current : bool)
| BC_ResizeSurface (new_surface_width new_surface_height : Z)
| BC_Destructor.

Inductive Event :=
| Ev_dlopen (name : string) (flags : Z) (ret : ptr)
| Ev_dlsym (handle : ptr) (symbol : string) (ret : ptr)
| Ev_dlclose (handle : ptr)
| Ev_wl_egl_window_create (fn : ptr) (surface : ptr) (width height : Z)
    (ret : ptr)
| Ev_wl_egl_window_destroy (fn : ptr) (egl_window : ptr)
| Ev_wl_egl_window_resize (fn : ptr) (egl_window : ptr)
    (width height dx dy : Z)
| Ev_eglGetPlatformDisplay (platform : Z) (native_display attribs : ptr)
    (ret : ptr)
| Ev_eglCreatePlatformWindowSurface (dpy config native_window attribs : ptr)
    (ret : ptr)
| Ev_eglGetError (ret : Z)
| Ev_CheckExtension (name alt_name : string) (ret : bool)
| Ev_Error_SetString (error : ptr) (msg : string)
| Ev_Console_Error (msg : string)
| Ev_Console_WriteLn (msg : string)
| Ev_Base (call : BaseCall)
| Ev_BaseEffect (tag : string) (ret : Z).

Definition Trace := list Event.

(** ** The outside world *)

(** What the loader, the shim library and the platform layer answer.  Each
    answer may depend on everything that happened before. *)
Record Env := {
  env_dlopen : Trace -> string -> Z -> ptr;
  env_dlsym : Trace -> ptr -> string -> ptr;
  env_wl_egl_window_create : Trace -> ptr -> ptr -> Z -> Z -> ptr;
  env_eglGetPlatformDisplay : Trace -> Z -> ptr -> ptr -> ptr;
  env_eglCreatePlatformWindowSurface :
    Trace -> ptr -> ptr -> ptr -> ptr -> ptr;
  env_eglGetError : Trace -> Z;
  env_has_extension : Trace -> string -> bool;
  env_base_effect : Trace -> string -> Z
}.

(** What the base class does when one of its entry points runs, as far as this
    class can see it: the base class calls the two virtual hooks, reads and
    writes its own fields (the [m_wl_...] members are private to the derived
    class), and performs platform calls of its own. *)
Inductive BaseScript :=
| BRet (result : bool)
| BGetPlatformDisplay (attribs error : ptr) (k : ptr -> BaseScript)
| BCreatePlatformSurface (config attribs error : ptr) (k : ptr -> BaseScript)
| BUpdate (f : GLContextEGL -> GLContextEGL) (k : BaseScript)
| BRead (k : GLContextEGL -> BaseScript)
| BEffect (tag : string) (k : Z -> BaseScript).

Record BaseClass := {
  base_construct : WindowInfo -> GLContextEGL;
  base_Initialize : list Version -> ptr -> BaseScript;
  base_CreateContextAndSurface : Version -> ptr -> bool -> BaseScript;
  base_ResizeSurface : Z -> Z -> BaseScript;
  base_extension_error : string -> string -> string
}.

(** ** Formatting *)

Definition upper_hex_digit (c : ascii) : ascii :=
  let n := nat_of_ascii c in
  if andb (Nat.leb 97 n) (Nat.leb n 102) then ascii_of_nat (n - 32) else c.

Fixpoint upper_hex (s : string) : string :=
  match s with
  | EmptyString => EmptyString
  | String c s' => String (upper_hex_digit c) (upper_hex s')
  end.

(** [{}] applied to an [EGLint]. *)
Definition fmt_dec (n : Z) : string :=
  DecimalString.NilZero.string_of_int (Z.to_int n).

(** [{:X}] applied to an [EGLint]. *)
Definition fmt_HEX (n : Z) : string :=
  upper_hex (HexadecimalString.NilZero.string_of_int (Z.to_hex_int n)).

(** Reading a number back from its digits, most significant first, in a
    given base; a leading ["-"] negates.  [read_dec] accepts the digits
    [0]..[9] only, [read_HEX] the digits [0]..[9] and [A]..[F] only. *)
Definition dec_digit (c : ascii) : option Z :=
  let n := Z.of_nat (nat_of_ascii c) in
  if (48 <=? n) && (n <=? 57) then Some (n - 48) else None.

Definition HEX_digit (c : ascii) : option Z :=
  let n := Z.of_nat (nat_of_ascii c) in
  if (48 <=? n) && (n <=? 57) then Some (n - 48)
  else if (65 <=? n) && (n <=? 70) then Some (n - 55)
  else None.

Fixpoint read_digits (radix : Z) (digit : ascii -> option Z) (acc : Z)
    (s : string) : option Z :=
  match s with
  | EmptyString => Some acc
  | String c s' =>
      match digit c with
      | Some d => read_digits radix digit (acc * radix + d) s'
      | None => None
      end
  end.

Definition read_number (radix : Z) (digit : ascii -> option Z) (s : string)
  : option Z :=
  match s with
  | EmptyString => None
  | String c s' =>
      if Ascii.eqb c "-" then
        match s' with
        | EmptyString => None
        | _ => option_map Z.opp (read_digits radix digit 0 s')
        end
      else read_digits radix digit 0 s
  end.

Definition read_dec : string -> option Z := read_number 10 dec_digit.
Definition read_HEX : string -> option Z := read_number 16 HEX_digit.

(** ["<what> for Wayland failed: {} (0x{:X})"] with [err] for both holes. *)
Definition fmt_egl_failure (what : string) (err : Z) : string :=
  (what ++ " for Wayland failed: " ++ fmt_dec err
     ++ " (0x" ++ fmt_HEX err ++ ")")%string.

(** ** The monad of the methods *)

(** A method runs on an object and on the history of events so far (latest
    first); it yields a result, the object afterwards, and the events it
    emitted (in order). *)
Definition M (A : Type) : Type :=
  GLContextEGLWayland -> Trace -> A * GLContextEGLWayland * Trace.

Definition ret {A} (a : A) : M A := fun c _ => (a, c, []).

Definition bind {A B} (m : M A) (f : A -> M B) : M B :=
  fun c h =>
    let '(a, c1, e1) := m c h in
    let '(b, c2, e2) := f a c1 (rev_append e1 h) in
    (b, c2, e1 ++ e2).

Declare Scope method_scope.
Delimit Scope method_scope with method.
Notation "x <- m ;; k" := (bind m (fun x => k))
  (at level 61, m at next level, right associativity) : method_scope.
Notation "m ;; k" := (bind m (fun _ => k))
  (at level 61, right associativity) : method_scope.
Open Scope method_scope.

Definition emit (e : Event) : M unit := fun c _ => (tt, c, [e]).
Definition this : M GLContextEGLWayland := fun c _ => (c, c, []).
Definition assign (f : GLContextEGLWayland -> GLContextEGLWayland) : M unit :=
  fun c _ => (tt, f c, []).

(** A call that leaves the class: the world answers, the call is recorded. *)
Definition extern {A} (answer : Trace -> A) (ev : A -> Event) : M A :=
  fun c h => let r := answer h in (r, c, [ev r]).

Definition result {A} (x : A * GLContextEGLWayland * Trace) : A :=
  fst (fst x).
Definition object {A} (x : A * GLContextEGLWayland * Trace)
  : GLContextEGLWayland := snd (fst x).
Definition events {A} (x : A * GLContextEGLWayland * Trace) : Trace := snd x.

Section Provider.

Variable E : Env.
Variable B : BaseClass.

(** *** Sinks *)

Definition Console_Error (msg : string) : M unit := emit (Ev_Console_Error msg).
Definition Console_WriteLn (msg : string) : M unit :=
  emit (Ev_Console_WriteLn msg).
Definition Error_SetStringFmt (error : ptr) (msg : string) : M unit :=
  emit (Ev_Error_SetString error msg).
Definition Error_SetStringView (error : ptr) (msg : string) : M unit :=
  emit (Ev_Error_SetString error msg).

(** *** Platform calls *)

Definition dlopen (name : string) (flags : Z) : M ptr :=
  extern (fun h => env_dlopen E h name flags) (Ev_dlopen name flags).

Definition dlsym (handle : ptr) (symbol : string) : M ptr :=
  extern (fun h => env_dlsym E h handle symbol) (Ev_dlsym handle symbol).

Definition dlclose (handle : ptr) : M unit := emit (Ev_dlclose handle).

Definition call_wl_egl_window_create (fn surface : ptr) (w h : Z) : M ptr :=
  extern (fun t => env_wl_egl_window_create E t fn surface w h)
         (Ev_wl_egl_window_create fn surface w h).

Definition call_wl_egl_window_destroy (fn win : ptr) : M unit :=
  emit (Ev_wl_egl_window_destroy fn win).

Definition call_wl_egl_window_resize (fn win : ptr) (w h dx dy : Z) : M unit :=
  emit (Ev_wl_egl_window_resize fn win w h dx dy).

Definition eglGetPlatformDisplay (platform : Z) (native attribs : ptr) : M ptr :=
  extern (fun t => env_eglGetPlatformDisplay E t platform native attribs)
         (Ev_eglGetPlatformDisplay platform native attribs).

Definition eglCreatePlatformWindowSurface (dpy config win attribs : ptr)
  : M ptr :=
  extern (fun t => env_eglCreatePlatformWindowSurface E t dpy config win attribs)
         (Ev_eglCreatePlatformWindowSurface dpy config win attribs).

Definition eglGetError : M Z := extern (env_eglGetError E) Ev_eglGetError.

(** *** GLContextEGLWayland.cpp *)

(** Modelled from the spec: the member initialisers are in
    GLContextEGLWayland.h, which is not among the sources.  The shim window
    handle and the library handle start out null (no resource is held before
    LoadModule runs); [fns] is whatever the three function pointers hold
    before LoadModule assigns them. *)
Definition GLContextEGLWayland_new (wi : WindowInfo) (fns : ShimFunctionTable)
  : GLContextEGLWayland :=
  {| base := base_construct B wi;
     m_wl_window := nullptr;
     m_wl_module := nullptr;
     m_wl_egl_window_create := fn_create fns;
     m_wl_egl_window_destroy := fn_destroy fns;
     m_wl_egl_window_resize := fn_resize fns |}.

(** [GLContextEGLWayland::~GLContextEGLWayland], the body. *)
Definition destructor_body : M unit :=
  c <- this ;;
  (if is_set (m_wl_window c)
   then call_wl_egl_window_destroy (m_wl_egl_window_destroy c) (m_wl_window c)
   else ret tt) ;;
  c <- this ;;
  (if is_set (m_wl_module c)
   then dlclose (m_wl_module c)
   else ret tt).

(** Destroying the object: the body above, then the base class destructor. *)
Definition destroy : M unit :=
  destructor_body ;;
  emit (Ev_Base BC_Destructor).

(** [GLContextEGLWayland::LoadModule]. *)
Definition LoadModule : M bool :=
  m <- dlopen WAYLAND_EGL_MODNAME (Z.lor RTLD_NOW RTLD_GLOBAL) ;;
  assign (set_m_wl_module m) ;;
  if negb (is_set m) then
    Console_Error ("Failed to load " ++ WAYLAND_EGL_MODNAME ++ ".")%string ;;
    ret false
  else
    c <- this ;;
    f <- dlsym (m_wl_module c) "wl_egl_window_create" ;;
    assign (set_m_wl_egl_window_create f) ;;
    c <- this ;;
    f <- dlsym (m_wl_module c) "wl_egl_window_destroy" ;;
    assign (set_m_wl_egl_window_destroy f) ;;
    c <- this ;;
    f <- dlsym (m_wl_module c) "wl_egl_window_resize" ;;
    assign (set_m_wl_egl_window_resize f) ;;
    c <- this ;;
    if negb (is_set (m_wl_egl_window_create c))
       || negb (is_set (m_wl_egl_window_destroy c))
       || negb (is_set (m_wl_egl_window_resize c))
    then
      Console_Error ("Failed to load one or more functions from "
                     ++ WAYLAND_EGL_MODNAME ++ ".")%string ;;
      ret false
    else ret true.

(** Modelled from the spec: GLContextEGL::CheckExtension belongs to the base
    class, which is not among the sources.  It asks the platform layer
    whether it advertises one of the two extension names; when neither is
    present it sets a descriptive error and fails. *)
Definition CheckExtension (name alt_name : string) (error : ptr) : M bool :=
  ok <- extern (fun h => env_has_extension E h name
                         || env_has_extension E h alt_name)
               (Ev_CheckExtension name alt_name) ;;
  if ok then ret true
  else
    Error_SetStringFmt error (base_extension_error B name alt_name) ;;
    ret false.

(** [GLContextEGLWayland::GetPlatformDisplay]. *)
Definition GetPlatformDisplay (attribs error : ptr) : M ptr :=
  ok <- CheckExtension "EGL_KHR_platform_wayland" "EGL_EXT_platform_wayland"
                       error ;;
  if negb ok then ret EGL_NO_DISPLAY
  else
    c <- this ;;
    dpy <- eglGetPlatformDisplay EGL_PLATFORM_WAYLAND_KHR
             (display_connection (m_wi (base c))) attribs ;;
    (if dpy =? EGL_NO_DISPLAY then
       err <- eglGetError ;;
       Error_SetStringFmt error (fmt_egl_failure "eglGetPlatformDisplay()" err)
     else ret tt) ;;
    ret dpy.

(** [GLContextEGLWayland::CreatePlatformSurface]. *)
Definition CreatePlatformSurface (config attribs error : ptr) : M ptr :=
  c <- this ;;
  (if is_set (m_wl_window c) then
     call_wl_egl_window_destroy (m_wl_egl_window_destroy c) (m_wl_window c) ;;
     assign (set_m_wl_window nullptr)
   else ret tt) ;;
  c <- this ;;
  w <- call_wl_egl_window_create (m_wl_egl_window_create c)
         (window_handle (m_wi (base c)))
         (int_of_u32 (surface_width (m_wi (base c))))
         (int_of_u32 (surface_height (m_wi (base c)))) ;;
  assign (set_m_wl_window w) ;;
  c <- this ;;
  if negb (is_set (m_wl_window c)) then
    Error_SetStringView error "wl_egl_window_create() failed" ;;
    ret EGL_NO_SURFACE
  else
    surface <- eglCreatePlatformWindowSurface (m_display (base c)) config
                 (m_wl_window c) attribs ;;
    (if surface =? EGL_NO_SURFACE then
       err <- eglGetError ;;
       Error_SetStringFmt error
         (fmt_egl_failure "eglCreatePlatformWindowSurface()" err) ;;
       c <- this ;;
       call_wl_egl_window_destroy (m_wl_egl_window_destroy c) (m_wl_window c) ;;
       assign (set_m_wl_window nullptr)
     else ret tt) ;;
    ret surface.

(** *** The base class at work *)

(** Running a base class entry point on this object: the two hooks dispatch
    to the overrides above. *)
Fixpoint run_base (s : BaseScript) : M bool :=
  match s with
  | BRet b => ret b
  | BGetPlatformDisplay attribs error k =>
      dpy <- GetPlatformDisplay attribs error ;; run_base (k dpy)
  | BCreatePlatformSurface config attribs error k =>
      surface <- CreatePlatformSurface config attribs error ;;
      run_base (k surface)
  | BUpdate f k =>
      assign (fun c => set_base (f (base c)) c) ;; run_base k
  | BRead k =>
      c <- this ;; run_base (k (base c))
  | BEffect tag k =>
      r <- extern (fun h => env_base_effect E h tag) (Ev_BaseEffect tag) ;;
      run_base (k r)
  end.

Definition base_call (call : BaseCall) (s : BaseScript) : M bool :=
  emit (Ev_Base call) ;; run_base s.

Definition Initialize (versions_to_try : list Version) (error : ptr) : M bool :=
  base_call (BC_Initialize versions_to_try error)
            (base_Initialize B versions_to_try error).

Definition CreateContextAndSurface (version : Version) (share_context : ptr)
    (make_current : bool) : M bool :=
  base_call (BC_CreateContextAndSurface version share_context make_current)
            (base_CreateContextAndSurface B version share_context make_current).

Definition GLContextEGL_ResizeSurface (w h : Z) : M unit :=
  base_call (BC_ResizeSurface w h) (base_ResizeSurface B w h) ;; ret tt.

(** *** GLContextEGLWayland.cpp, continued *)

(** [GLContextEGLWayland::ResizeSurface]. *)
Definition ResizeSurface (new_surface_width new_surface_height : Z) : M unit :=
  c <- this ;;
  (if is_set (m_wl_window c) then
     call_wl_egl_window_resize (m_wl_egl_window_resize c) (m_wl_window c)
       (int_of_u32 new_surface_width) (int_of_u32 new_surface_height) 0 0
   else ret tt) ;;
  GLContextEGL_ResizeSurface new_surface_width new_surface_height.

(** [GLContextEGLWayland::Create], run on the freshly made [context].  The
    result tells whether [context] is returned; on [return nullptr] the
    [unique_ptr] goes out of scope and the object is destroyed. *)
Definition Create_on_context (versions_to_try : list Version) (error : ptr)
  : M bool :=
  loaded <- LoadModule ;;
  failed <- (if negb loaded then ret true
             else ok <- Initialize versions_to_try error ;; ret (negb ok)) ;;
  if failed then
    destroy ;; ret false
  else
    Console_WriteLn "EGL Platform: Wayland" ;;
    ret true.

Definition Create (wi : WindowInfo) (fns : ShimFunctionTable)
    (versions_to_try : list Version) (error : ptr) (h : Trace)
  : option GLContextEGLWayland * Trace :=
  let context := GLContextEGLWayland_new wi fns in
  let '(ok, context, evs) := Create_on_context versions_to_try error context h in
  (if ok then Some context else None, evs).

(** [GLContextEGLWayland::CreateSharedContext], run on the new [context]. *)
Definition CreateSharedContext_on_context (version : Version)
    (share_context : ptr) : M bool :=
  loaded <- LoadModule ;;
  failed <- (if negb loaded then ret true
             else ok <- CreateContextAndSurface version share_context false ;;
                  ret (negb ok)) ;;
  if failed then
    destroy ;; ret false
  else ret true.

(** The new [context] of [CreateSharedContext] after the two assignments. *)
Definition shared_context (self : GLContextEGLWayland) (wi : WindowInfo)
    (fns : ShimFunctionTable) : GLContextEGLWayland :=
  let context := GLContextEGLWayland_new wi fns in
  let context :=
    set_base (set_m_display (m_display (base self)) (base context)) context in
  let context :=
    set_base (set_m_supports_surfaceless
                (m_supports_surfaceless (base self)) (base context)) context in
  context.

Definition CreateSharedContext (self : GLContextEGLWayland) (wi : WindowInfo)
    (fns : ShimFunctionTable) (h : Trace)
  : option GLContextEGLWayland * Trace :=
  let context := shared_context self wi fns in
  let '(ok, context, evs) :=
    CreateSharedContext_on_context
      (m_version (base self)) (m_context (base self)) context h in
  (if ok then Some context else None, evs).

End Provider.

(** ** Reading traces *)

Definition is_shim_create (e : Event) : bool :=
  match e with Ev_wl_egl_window_create _ _ _ _ _ => true | _ => false end.

Definition is_shim_resize (e : Event) : bool :=
  match e with Ev_wl_egl_window_resize _ _ _ _ _ _ => true | _ => false end.

Definition is_surface_create (e : Event) : bool :=
  match e with
  | Ev_eglCreatePlatformWindowSurface _ _ _ _ _ => true
  | _ => false
  end.

Definition is_display_acquire (e : Event) : bool :=
  match e with Ev_eglGetPlatformDisplay _ _ _ _ => true | _ => false end.

Definition is_dlclose (e : Event) : bool :=
  match e with Ev_dlclose _ => true | _ => false end.

(** The structured error sink ([Error::SetStringFmt], [Error::SetStringView]),
    as opposed to the error log line ([Console.Error]). *)
Definition is_error_sink (e : Event) : bool :=
  match e with Ev_Error_SetString _ _ => true | _ => false end.

(** A call through a null function pointer. *)
Definition calls_null_fn (e : Event) : bool :=
  match e with
  | Ev_wl_egl_window_create fn _ _ _ _ => fn =? 0
  | Ev_wl_egl_window_destroy fn _ => fn =? 0
  | Ev_wl_egl_window_resize fn _ _ _ _ _ => fn =? 0
  | _ => false
  end.

(** A release routine handed a null handle. *)
Definition releases_null (e : Event) : bool :=
  match e with
  | Ev_wl_egl_window_destroy _ w => w =? 0
  | Ev_dlclose m => m =? 0
  | _ => false
  end.

(** The shim window objects alive after an event, given those alive before. *)
Fixpoint remove_one (w : ptr) (l : list ptr) : list ptr :=
  match l with
  | [] => []
  | x :: l' => if x =? w then l' else x :: remove_one w l'
  end.

Definition alive_step (alive : list ptr) (e : Event) : list ptr :=
  match e with
  | Ev_wl_egl_window_create _ _ _ _ w => if is_set w then w :: alive else alive
  | Ev_wl_egl_window_destroy _ w => remove_one w alive
  | _ => alive
  end.

(** The shim window objects alive after each event of a trace, in order. *)
Fixpoint alive_history (alive : list ptr) (t : Trace) : list (list ptr) :=
  match t with
  | [] => []
  | e :: t' => let a := alive_step alive e in a :: alive_history a t'
  end.

Definition alive_after (alive : list ptr) (t : Trace) : list ptr :=
  fold_left alive_step t alive.

(** The shim window object an object holds. *)
Definition held (c : GLContextEGLWayland) : list ptr :=
  if is_set (m_wl_window c) then [m_wl_window c] else [].

(** The library is open and all three function pointers are resolved. *)
Definition loaded (c : GLContextEGLWayland) : Prop :=
  m_wl_module c <> 0 /\ m_wl_egl_window_create c <> 0
  /\ m_wl_egl_window_destroy c <> 0 /\ m_wl_egl_window_resize c <> 0.

(** The object after the four loader requests were answered. *)
Definition with_answers (a : ptr * ptr * ptr * ptr) (c : GLContextEGLWayland)
  : GLContextEGLWayland :=
  let '(m, f1, f2, f3) := a in
  set_m_wl_egl_window_resize f3
    (set_m_wl_egl_window_destroy f2
       (set_m_wl_egl_window_create f1 (set_m_wl_module m c))).

Definition loader_requests (a : ptr * ptr * ptr * ptr) : Trace :=
  let '(m, f1, f2, f3) := a in
  [Ev_dlopen WAYLAND_EGL_MODNAME (Z.lor RTLD_NOW RTLD_GLOBAL) m;
   Ev_dlsym m "wl_egl_window_create" f1;
   Ev_dlsym m "wl_egl_window_destroy" f2;
   Ev_dlsym m "wl_egl_window_resize" f3].

(** The release of the shim window an object holds, if it holds one. *)
Definition release_held (c : GLContextEGLWayland) : Trace :=
  if is_set (m_wl_window c)
  then [Ev_wl_egl_window_destroy (m_wl_egl_window_destroy c) (m_wl_window c)]
  else [].

(** What a stretch of events [evs] that takes an object from [c] to [c']
    leaves alone and keeps true: the library handle and the function table
    stay as they are, no call goes through a null function pointer when the
    create and destroy pointers are resolved, the stretch neither resizes the
    shim window nor closes the library nor releases a null handle, at most one
    shim window is alive after each event, and the one alive at the end is the
    one [c'] holds. *)
Record guarded (c : GLContextEGLWayland) (evs : Trace)
    (c' : GLContextEGLWayland) : Prop := {
  g_module : m_wl_module c' = m_wl_module c;
  g_create : m_wl_egl_window_create c' = m_wl_egl_window_create c;
  g_destroy : m_wl_egl_window_destroy c' = m_wl_egl_window_destroy c;
  g_resize : m_wl_egl_window_resize c' = m_wl_egl_window_resize c;
  g_calls :
    m_wl_egl_window_create c <> 0 -> m_wl_egl_window_destroy c <> 0 ->
    forallb (fun e => negb (calls_null_fn e)) evs = true;
  g_quiet :
    forallb (fun e => negb (is_shim_resize e) && negb (is_dlclose e)
                      && negb (releases_null e)) evs = true;
  g_alive : Forall (fun a => (List.length a <= 1)%nat)
                   (alive_history (held c) evs);
  g_held : alive_after (held c) evs = held c'
}.

Section Lifecycle.

Variable E : Env.
Variable B : BaseClass.

(** What the loader answers to the four requests of [LoadModule] when it is
    entered at history [h]: the library handle and the three symbols.  The
    symbols are only asked for when the library opened. *)
Definition loader_answers (h : Trace) : ptr * ptr * ptr * ptr :=
  let flags := Z.lor RTLD_NOW RTLD_GLOBAL in
  let m := env_dlopen E h WAYLAND_EGL_MODNAME flags in
  let h1 := Ev_dlopen WAYLAND_EGL_MODNAME flags m :: h in
  let f1 := env_dlsym E h1 m "wl_egl_window_create" in
  let h2 := Ev_dlsym m "wl_egl_window_create" f1 :: h1 in
  let f2 := env_dlsym E h2 m "wl_egl_window_destroy" in
  let h3 := Ev_dlsym m "wl_egl_window_destroy" f2 :: h2 in
  let f3 := env_dlsym E h3 m "wl_egl_window_resize" in
  (m, f1, f2, f3).

Definition opened_library (h : Trace) : ptr :=
  let '(m, _, _, _) := loader_answers h in m.

Definition library_opens (h : Trace) : Prop := opened_library h <> 0.

Definition symbols_resolve (h : Trace) : Prop :=
  let '(_, f1, f2, f3) := loader_answers h in f1 <> 0 /\ f2 <> 0 /\ f3 <> 0.

(** What the platform layer answers to [GetPlatformDisplay] entered at
    history [h] on object [c]: whether one of the two extension names is
    advertised, the display handle, and the error code asked for after a
    failed acquisition; and the events that record the answers. *)
Definition extension_advertised (h : Trace) : bool :=
  env_has_extension E h "EGL_KHR_platform_wayland"
  || env_has_extension E h "EGL_EXT_platform_wayland".

Definition check_event (h : Trace) : Event :=
  Ev_CheckExtension "EGL_KHR_platform_wayland" "EGL_EXT_platform_wayland"
    (extension_advertised h).

Definition display_answer (attribs : ptr) (c : GLContextEGLWayland)
    (h : Trace) : ptr :=
  env_eglGetPlatformDisplay E (check_event h :: h) EGL_PLATFORM_WAYLAND_KHR
    (display_connection (m_wi (base c))) attribs.

Definition display_event (attribs : ptr) (c : GLContextEGLWayland)
    (h : Trace) : Event :=
  Ev_eglGetPlatformDisplay EGL_PLATFORM_WAYLAND_KHR
    (display_connection (m_wi (base c))) attribs (display_answer attribs c h).

Definition display_error (attribs : ptr) (c : GLContextEGLWayland)
    (h : Trace) : Z :=
  env_eglGetError E (display_event attribs c h :: check_event h :: h).

(** What the shim library and the platform layer answer to
    [CreatePlatformSurface] entered at history [h] on object [c]: the new
    shim window, the window surface, and the error code asked for after a
    failed surface acquisition; and the events that record the answers. *)
Definition shim_answer (c : GLContextEGLWayland) (h : Trace) : ptr :=
  env_wl_egl_window_create E (rev_append (release_held c) h)
    (m_wl_egl_window_create c) (window_handle (m_wi (base c)))
    (int_of_u32 (surface_width (m_wi (base c))))
    (int_of_u32 (surface_height (m_wi (base c)))).

Definition shim_event (c : GLContextEGLWayland) (h : Trace) : Event :=
  Ev_wl_egl_window_create (m_wl_egl_window_create c)
    (window_handle (m_wi (base c)))
    (int_of_u32 (surface_width (m_wi (base c))))
    (int_of_u32 (surface_height (m_wi (base c))))
    (shim_answer c h).

Definition surface_answer (config attribs : ptr) (c : GLContextEGLWayland)
    (h : Trace) : ptr :=
  env_eglCreatePlatformWindowSurface E
    (shim_event c h :: rev_append (release_held c) h)
    (m_display (base c)) config (shim_answer c h) attribs.

Definition surface_event (config attribs : ptr) (c : GLContextEGLWayland)
    (h : Trace) : Event :=
  Ev_eglCreatePlatformWindowSurface (m_display (base c)) config
    (shim_answer c h) attribs (surface_answer config attribs c h).

Definition surface_error (config attribs : ptr) (c : GLContextEGLWayland)
    (h : Trace) : Z :=
  env_eglGetError E
    (surface_event config attribs c h :: shim_event c h
     :: rev_append (release_held c) h).

(** The shim resize an object with a shim window passes on. *)
Definition resize_held (c : GLContextEGLWayland) (w h : Z) : Trace :=
  if is_set (m_wl_window c)
  then [Ev_wl_egl_window_resize (m_wl_egl_window_resize c) (m_wl_window c)
          (int_of_u32 w) (int_of_u32 h) 0 0]
  else [].

(** A run of [CreatePlatformSurface] calls on one object. *)
Fixpoint CreatePlatformSurface_calls (calls : list (ptr * ptr * ptr))
  : M (list ptr) :=
  match calls with
  | [] => ret []
  | (config, attribs, error) :: calls' =>
      s <- CreatePlatformSurface E config attribs error ;;
      ss <- CreatePlatformSurface_calls calls' ;;
      ret (s :: ss)
  end.

(** The states an object goes through.  Both factories make the object
    ([Fresh]) and run [LoadModule] on it once; only when that succeeds
    ([Ready]) the base class gets to run, in the factory and later, and the
    host gets to resize; when it fails ([Failed]) the object is destroyed. *)
Inductive Phase := Fresh | Ready | Failed.

Inductive lifecycle : Phase -> GLContextEGLWayland -> Prop :=
| life_new wi fns :
    lifecycle Fresh (GLContextEGLWayland_new B wi fns)
| life_shared self wi fns :
    lifecycle Ready self ->
    lifecycle Fresh (shared_context B self wi fns)
| life_LoadModule c h :
    lifecycle Fresh c ->
    lifecycle (if result (LoadModule E c h) then Ready else Failed)
              (object (LoadModule E c h))
| life_base c s h :
    lifecycle Ready c ->
    lifecycle Ready (object (run_base E B s c h))
| life_ResizeSurface c w h hist :
    lifecycle Ready c ->
    lifecycle Ready (object (ResizeSurface E B w h c hist)).

End Lifecycle.

(** ** Sample worlds *)

Module Sample.

Definition count_creates (h : Trace) : Z :=
  Z.of_nat (List.length (filter is_shim_create h)).

(** A loader that opens the library at [lib] unless [lib] is null and resolves
    every symbol but [missing]; a shim that hands out fresh window objects
    unless [shim_fails]; a platform layer that advertises the KHR extension
    when [ext], and answers [dpy], [surf] and [err]. *)
Definition world (lib : ptr) (missing : string) (ext : bool) (shim_fails : bool)
    (dpy surf : ptr) (err : Z) : Env :=
  {| env_dlopen := fun _ _ _ => lib;
     env_dlsym := fun _ _ sym =>
       if String.eqb sym missing then 0
       else if String.eqb sym "wl_egl_window_create" then 0x7100
       else if String.eqb sym "wl_egl_window_destroy" then 0x7200
       else if String.eqb sym "wl_egl_window_resize" then 0x7300
       else 0;
     env_wl_egl_window_create := fun h _ _ _ _ =>
       if shim_fails then 0 else 0x9000 + count_creates h;
     env_eglGetPlatformDisplay := fun _ _ _ _ => dpy;
     env_eglCreatePlatformWindowSurface := fun _ _ _ _ _ => surf;
     env_eglGetError := fun _ => err;
     env_has_extension := fun _ name =>
       ext && String.eqb name "EGL_KHR_platform_wayland";
     env_base_effect := fun _ _ => 0 |}.

Definition good : Env := world 0x7000 "" true false 0xD15 0x5F00 0x3000.
Definition no_library : Env := world 0 "" true false 0xD15 0x5F00 0x3000.
Definition no_resize_symbol : Env :=
  world 0x7000 "wl_egl_window_resize" true false 0xD15 0x5F00 0x3000.
Definition no_extension : Env := world 0x7000 "" false false 0xD15 0x5F00 0x3000.
Definition no_display : Env := world 0x7000 "" true false 0 0x5F00 0x300C.
Definition no_shim : Env := world 0x7000 "" true true 0xD15 0x5F00 0x3000.
Definition no_surface : Env := world 0x7000 "" true false 0xD15 0 0x3003.

Definition set_m_surface (s : ptr) (b : GLContextEGL) : GLContextEGL :=
  {| m_wi := m_wi b; m_display := m_display b; m_surface := s;
     m_context := m_context b; m_config := m_config b;
     m_version := m_version b;
     m_supports_surfaceless := m_supports_surfaceless b |}.

(** A base class whose entry points call the hooks the way the initialisation
    sequence does: the display first, then the surface. *)
Definition surface_script (error : ptr) : BaseScript :=
  BRead (fun b =>
    BCreatePlatformSurface (m_config b) nullptr error (fun s =>
      if s =? EGL_NO_SURFACE then BRet false
      else BUpdate (set_m_surface s) (BRet true))).

Definition base_class : BaseClass :=
  {| base_construct := fun wi =>
       {| m_wi := wi; m_display := 0; m_surface := 0; m_context := 0;
          m_config := 0; m_version := {| major_version := 0; minor_version := 0 |};
          m_supports_surfaceless := false |};
     base_Initialize := fun _ error =>
       BGetPlatformDisplay nullptr error (fun dpy =>
         if dpy =? EGL_NO_DISPLAY then BRet false
         else BUpdate (set_m_display dpy) (surface_script error));
     base_CreateContextAndSurface := fun _ _ _ => surface_script nullptr;
     base_ResizeSurface := fun _ _ => BRet true;
     base_extension_error := fun name _ =>
       ("EGL implementation does not support " ++ name)%string |}.

Definition window : WindowInfo :=
  {| display_connection := 0xC000; window_handle := 0xA000;
     surface_width := 640; surface_height := 448 |}.

Definition unset : ShimFunctionTable :=
  {| fn_create := 0; fn_destroy := 0; fn_resize := 0 |}.

Definition v33 : Version := {| major_version := 3; minor_version := 3 |}.

(** An object with a shim window and an open library. *)
Definition live : GLContextEGLWayland :=
  {| base := base_construct base_class window;
     m_wl_window := 0x9000; m_wl_module := 0x7000;
     m_wl_egl_window_create := 0x7100;
     m_wl_egl_window_destroy := 0x7200;
     m_wl_egl_window_resize := 0x7300 |}.

(** The same object on a window whose sizes have the top bit set. *)
Definition wide_live : GLContextEGLWayland :=
  set_base
    {| m_wi := {| display_connection := 0xC000; window_handle := 0xA000;
                  surface_width := 0xFFFFFFFF; surface_height := 0x80000000 |};
       m_display := 0xD15; m_surface := 0; m_context := 0; m_config := 0;
       m_version := {| major_version := 0; minor_version := 0 |};
       m_supports_surfaceless := false |}
    live.

Definition error : ptr := 0xEE.

(** The object [Create] hands out in the good world: after [LoadModule], and
    after [Initialize]. *)
Definition loaded_object : GLContextEGLWayland :=
  object (LoadModule good (GLContextEGLWayland_new base_class window unset) []).

Definition created_object : GLContextEGLWayland :=
  object (run_base good base_class (base_Initialize base_class [v33] error)
            loaded_object []).

End Sample.

(** ** Accounting for resources over whole runs *)

Definition is_shim_destroy (e : Event) : bool :=
  match e with Ev_wl_egl_window_destroy _ _ => true | _ => false end.

Definition is_shim_call (e : Event) : bool :=
  is_shim_create e || is_shim_destroy e || is_shim_resize e.

Definition is_loader_call (e : Event) : bool :=
  match e with
  | Ev_dlopen _ _ _ | Ev_dlsym _ _ _ | Ev_dlclose _ => true
  | _ => false
  end.

Definition is_info_log (e : Event) : bool :=
  match e with Ev_Console_WriteLn _ => true | _ => false end.

Definition is_dlsym (e : Event) : bool :=
  match e with Ev_dlsym _ _ _ => true | _ => false end.

Definition is_eglGetError (e : Event) : bool :=
  match e with Ev_eglGetError _ => true | _ => false end.

(** The events the two hooks and the base class can emit while the base
    class runs on the object. *)
Definition is_hook_event (e : Event) : bool :=
  match e with
  | Ev_wl_egl_window_create _ _ _ _ _ | Ev_wl_egl_window_destroy _ _
  | Ev_eglGetPlatformDisplay _ _ _ _
  | Ev_eglCreatePlatformWindowSurface _ _ _ _ _
  | Ev_eglGetError _ | Ev_CheckExtension _ _ _ | Ev_Error_SetString _ _
  | Ev_BaseEffect _ _ => true
  | _ => false
  end.

(** The library handles open after an event, given those open before. *)
Definition library_step (open : list ptr) (e : Event) : list ptr :=
  match e with
  | Ev_dlopen _ _ m => if is_set m then m :: open else open
  | Ev_dlclose m => remove_one m open
  | _ => open
  end.

Definition libraries_after (open : list ptr) (t : Trace) : list ptr :=
  fold_left library_step t open.

(** The library handle an object holds. *)
Definition library_held (c : GLContextEGLWayland) : list ptr :=
  if is_set (m_wl_module c) then [m_wl_module c] else [].

(** No shim entry point is called once a library has been closed. *)
Fixpoint library_closed_last (t : Trace) : bool :=
  match t with
  | [] => true
  | e :: t' =>
      (if is_dlclose e then forallb (fun e' => negb (is_shim_call e')) t'
       else true)
      && library_closed_last t'
  end.

(** A stretch of events [evs] that takes an object from [c] to [c'] in good
    order: the library handle and the function table stay as they are, the
    loader is not called, no null handle is released, no call goes through a
    null function pointer when the table is resolved, at most one shim
    window is alive after each event, and the one alive at the end is the
    one [c'] holds. *)
Record orderly (c : GLContextEGLWayland) (evs : Trace)
    (c' : GLContextEGLWayland) : Prop := {
  o_module : m_wl_module c' = m_wl_module c;
  o_create : m_wl_egl_window_create c' = m_wl_egl_window_create c;
  o_destroy : m_wl_egl_window_destroy c' = m_wl_egl_window_destroy c;
  o_resize : m_wl_egl_window_resize c' = m_wl_egl_window_resize c;
  o_loader : forallb (fun e => negb (is_loader_call e)) evs = true;
  o_release : forallb (fun e => negb (releases_null e)) evs = true;
  o_calls : loaded c -> forallb (fun e => negb (calls_null_fn e)) evs = true;
  o_alive : Forall (fun a => (List.length a <= 1)%nat)
                   (alive_history (held c) evs);
  o_held : alive_after (held c) evs = held c'
}.

(** A trace that starts with the shim windows [a] alive and the libraries
    [l] open and ends with [a'] and [l']: at most one shim window is alive
    after each event, no call goes through a null function pointer, no null
    handle is released, and no library is closed. *)
Record accounted (a l : list ptr) (evs : Trace) (a' l' : list ptr) : Prop := {
  acc_alive : Forall (fun x => (List.length x <= 1)%nat) (alive_history a evs);
  acc_alive_after : alive_after a evs = a';
  acc_libraries : libraries_after l evs = l';
  acc_calls : forallb (fun e => negb (calls_null_fn e)) evs = true;
  acc_release : forallb (fun e => negb (releases_null e)) evs = true;
  acc_open : forallb (fun e => negb (is_dlclose e)) evs = true
}.

(** A trace that starts and ends with nothing held: every shim window made
    was destroyed and every library opened was closed, with the library
    closed after the last shim call. *)
Definition released_everything (t : Trace) : Prop :=
  Forall (fun x => (List.length x <= 1)%nat) (alive_history [] t)
  /\ alive_after [] t = []
  /\ libraries_after [] t = []
  /\ forallb (fun e => negb (calls_null_fn e)) t = true
  /\ forallb (fun e => negb (releases_null e)) t = true
  /\ library_closed_last t = true.

Section Lifetime.

Variable E : Env.
Variable B : BaseClass.

(** What happens to an object between its creation and its destruction: the
    host resizes it, and the base class runs on it. *)
Inductive HostOp :=
| Op_ResizeSurface (new_surface_width new_surface_height : Z)
| Op_Base (s : BaseScript).

Definition run_op (op : HostOp) : M unit :=
  match op with
  | Op_ResizeSurface w h => ResizeSurface E B w h
  | Op_Base s => run_base E B s ;; ret tt
  end.

Fixpoint run_ops (ops : list HostOp) : M unit :=
  match ops with
  | [] => ret tt
  | op :: ops' => run_op op ;; run_ops ops'
  end.

(** The events of a whole life: [Create], then, when it hands out an object,
    the operations on it and its destruction. *)
Definition lifetime (wi : WindowInfo) (fns : ShimFunctionTable)
    (versions : list Version) (error : ptr) (ops : list HostOp) (h : Trace)
  : Trace :=
  let '(created, e1) := Create E B wi fns versions error h in
  match created with
  | None => e1
  | Some c => e1 ++ events ((run_ops ops ;; destroy) c (rev_append e1 h))
  end.

(** The same for an object made by [CreateSharedContext]. *)
Definition shared_lifetime (self : GLContextEGLWayland) (wi : WindowInfo)
    (fns : ShimFunctionTable) (ops : list HostOp) (h : Trace) : Trace :=
  let '(created, e1) := CreateSharedContext E B self wi fns h in
  match created with
  | None => e1
  | Some c => e1 ++ events ((run_ops ops ;; destroy) c (rev_append e1 h))
  end.

End Lifetime.

(** ** Proof tools *)

Ltac unfold_methods :=
  cbv [destroy destructor_body LoadModule CheckExtension GetPlatformDisplay
       CreatePlatformSurface ResizeSurface GLContextEGL_ResizeSurface
       base_call Initialize CreateContextAndSurface
       dlopen dlsym dlclose call_wl_egl_window_create
       call_wl_egl_window_destroy call_wl_egl_window_resize
       eglGetPlatformDisplay eglCreatePlatformWindowSurface eglGetError
       Console_Error Console_WriteLn Error_SetStringFmt Error_SetStringView
       bind ret emit this assign extern events result object fst snd];
  cbn [app rev_append negb];
  cbv [bind ret emit this assign extern];
  cbn [app rev_append].

Lemma is_set_true (p : ptr) : is_set p = true <-> p <> 0.
Proof.
  unfold is_set. destruct (Z.eqb_spec p 0); cbn; split; intros; congruence.
Qed.

Lemma int_of_u32_small (n : Z) : 0 <= n < 2 ^ 31 -> int_of_u32 n = n.
Proof.
  intros Hn. unfold int_of_u32. rewrite Z.mod_small by lia.
  destruct (Z.ltb_spec n (2 ^ 31)); lia.
Qed.

Lemma int_of_u32_large (n : Z) :
  2 ^ 31 <= n < 2 ^ 32 -> int_of_u32 n = n - 2 ^ 32.
Proof.
  intros Hn. unfold int_of_u32. rewrite Z.mod_small by lia.
  destruct (Z.ltb_spec n (2 ^ 31)); lia.
Qed.

(** ** Destruction *)

Section Destruction.

Lemma destructor_body_run (c : GLContextEGLWayland) (h : Trace) :
  destructor_body c h =
    (tt, c,
     release_held c
     ++ (if is_set (m_wl_module c) then [Ev_dlclose (m_wl_module c)] else [])).
Proof.
  unfold release_held. unfold_methods.
  destruct (is_set (m_wl_window c)), (is_set (m_wl_module c)); reflexivity.
Qed.

(** C1.  The destructor emits the shim destroy call, through the resolved
    destroy pointer, exactly when a shim window is held, then the [dlclose]
    exactly when a library handle is held, in this order and nothing else; so
    with both held the shim object is destroyed strictly before the library
    is closed, with one held only that one is released, and no release
    routine is ever given a null handle. *)
Theorem destructor_releases_shim_then_library
    (c : GLContextEGLWayland) (h : Trace) :
  events (destructor_body c h) =
    (if is_set (m_wl_window c)
     then [Ev_wl_egl_window_destroy (m_wl_egl_window_destroy c) (m_wl_window c)]
     else [])
    ++ (if is_set (m_wl_module c) then [Ev_dlclose (m_wl_module c)] else [])
  /\ object (destructor_body c h) = c
  /\ forallb (fun e => negb (releases_null e)) (events (destructor_body c h))
     = true.
Proof.
  rewrite destructor_body_run. unfold release_held.
  cbn [events object fst snd].
  destruct (is_set (m_wl_window c)) eqn:Hw;
    destruct (is_set (m_wl_module c)) eqn:Hm; cbn;
    unfold is_set in Hw, Hm; rewrite ?Hw, ?Hm; auto.
Qed.

End Destruction.

(** ** Loading the shim library *)

Section Loading.

Variable E : Env.
Variable B : BaseClass.

Lemma LoadModule_run (c : GLContextEGLWayland) (h : Trace) :
  let a := loader_answers E h in
  let '(m, f1, f2, f3) := a in
  LoadModule E c h =
    if is_set m then
      if is_set f1 && is_set f2 && is_set f3
      then (true, with_answers a c, loader_requests a)
      else (false, with_answers a c,
            loader_requests a
            ++ [Ev_Console_Error ("Failed to load one or more functions from "
                                  ++ WAYLAND_EGL_MODNAME ++ ".")%string])
    else (false, set_m_wl_module m c,
          [Ev_dlopen WAYLAND_EGL_MODNAME (Z.lor RTLD_NOW RTLD_GLOBAL) m;
           Ev_Console_Error ("Failed to load " ++ WAYLAND_EGL_MODNAME ++ ".")%string]).
Proof.
  cbv [loader_answers with_answers loader_requests].
  unfold_methods.
  set (m := env_dlopen E h _ _).
  destruct (is_set m) eqn:Hm; cbn [negb]; unfold_methods; [|reflexivity].
  cbn [m_wl_module set_m_wl_module set_m_wl_egl_window_create
       set_m_wl_egl_window_destroy set_m_wl_egl_window_resize
       m_wl_egl_window_create m_wl_egl_window_destroy m_wl_egl_window_resize].
  set (f1 := env_dlsym E _ m "wl_egl_window_create").
  set (f2 := env_dlsym E _ m "wl_egl_window_destroy").
  set (f3 := env_dlsym E _ m "wl_egl_window_resize").
  destruct (is_set f1), (is_set f2), (is_set f3); reflexivity.
Qed.

Lemma LoadModule_result (c : GLContextEGLWayland) (h : Trace) :
  result (LoadModule E c h) = true
  <-> library_opens E h /\ symbols_resolve E h.
Proof.
  pose proof (LoadModule_run c h) as Hrun.
  unfold library_opens, opened_library, symbols_resolve.
  cbv zeta in Hrun.
  destruct (loader_answers E h) as [[[m f1] f2] f3].
  rewrite Hrun. rewrite <- !is_set_true.
  destruct (is_set m), (is_set f1), (is_set f2), (is_set f3); cbn;
    intuition congruence.
Qed.

Lemma LoadModule_result_any (c c' : GLContextEGLWayland) (h : Trace) :
  result (LoadModule E c h) = result (LoadModule E c' h)
  /\ events (LoadModule E c h) = events (LoadModule E c' h).
Proof.
  pose proof (LoadModule_run c h) as Hc.
  pose proof (LoadModule_run c' h) as Hc'.
  cbv zeta in Hc, Hc'.
  destruct (loader_answers E h) as [[[m f1] f2] f3].
  rewrite Hc, Hc'.
  destruct (is_set m), (is_set f1), (is_set f2), (is_set f3); split; reflexivity.
Qed.

(** A successful [LoadModule] leaves the library open and the table full; no
    run of it touches the shim window handle or the base class state. *)
Lemma LoadModule_object (c : GLContextEGLWayland) (h : Trace) :
  m_wl_window (object (LoadModule E c h)) = m_wl_window c
  /\ base (object (LoadModule E c h)) = base c
  /\ m_wl_module (object (LoadModule E c h)) = opened_library E h
  /\ (result (LoadModule E c h) = true -> loaded (object (LoadModule E c h))).
Proof.
  pose proof (LoadModule_run c h) as Hrun.
  unfold opened_library, loaded. cbv zeta in Hrun.
  destruct (loader_answers E h) as [[[m f1] f2] f3].
  rewrite Hrun. rewrite <- !is_set_true.
  destruct (is_set m) eqn:Hm, (is_set f1) eqn:H1, (is_set f2) eqn:H2,
    (is_set f3) eqn:H3; cbn; intuition congruence.
Qed.

Lemma destroy_run (c : GLContextEGLWayland) (h : Trace) :
  destroy c h = (tt, c, events (destroy c h)).
Proof.
  unfold_methods.
  destruct (is_set (m_wl_window c)), (is_set (m_wl_module c)); reflexivity.
Qed.

(** [Create] and [CreateSharedContext], case by case: the loader requests,
    then the base class entry point when the library loaded, then the
    destruction of the object when either step failed. *)
Lemma Create_on_context_run
    (versions : list Version) (error : ptr) (c : GLContextEGLWayland)
    (h : Trace) :
  let r1 := LoadModule E c h in
  let h1 := rev_append (events r1) h in
  let r2 := Initialize E B versions error (object r1) h1 in
  let h2 := rev_append (events r2) h1 in
  Create_on_context E B versions error c h =
    if result r1 then
      if result r2 then
        (true, object r2,
         events r1 ++ events r2 ++ [Ev_Console_WriteLn "EGL Platform: Wayland"])
      else
        (false, object r2,
         events r1 ++ events r2 ++ events (destroy (object r2) h2))
    else
      (false, object r1, events r1 ++ events (destroy (object r1) h1)).
Proof.
  cbv zeta. unfold Create_on_context, bind at 1, bind at 1.
  destruct (LoadModule E c h) as [[ok c1] e1]. cbn [result fst snd object events].
  destruct ok; cbv [negb ret bind]; cbn [app rev_append].
  - destruct (Initialize E B versions error c1 (rev_append e1 h))
      as [[ok2 c2] e2]. cbn [result fst snd object events].
    rewrite !app_nil_r.
    destruct ok2; [reflexivity|].
    cbv [emit Console_WriteLn]. 
    rewrite (destroy_run c2). cbn [events snd]. rewrite app_nil_r. reflexivity.
  - rewrite (destroy_run c1 (rev_append e1 h)). cbn [events snd].
    rewrite app_nil_r. reflexivity.
Qed.

Lemma CreateSharedContext_on_context_run
    (version : Version) (share : ptr) (c : GLContextEGLWayland) (h : Trace) :
  let r1 := LoadModule E c h in
  let h1 := rev_append (events r1) h in
  let r2 := CreateContextAndSurface E B version share false (object r1) h1 in
  let h2 := rev_append (events r2) h1 in
  CreateSharedContext_on_context E B version share c h =
    if result r1 then
      if result r2 then (true, object r2, events r1 ++ events r2)
      else
        (false, object r2,
         events r1 ++ events r2 ++ events (destroy (object r2) h2))
    else
      (false, object r1, events r1 ++ events (destroy (object r1) h1)).
Proof.
  cbv zeta. unfold CreateSharedContext_on_context, bind at 1, bind at 1.
  destruct (LoadModule E c h) as [[ok c1] e1]. cbn [result fst snd object events].
  destruct ok; cbv [negb ret bind]; cbn [app rev_append].
  - destruct (CreateContextAndSurface E B version share false c1
                (rev_append e1 h)) as [[ok2 c2] e2].
    cbn [result fst snd object events].
    rewrite ?app_nil_r.
    destruct ok2; cbn [negb app]; rewrite ?app_nil_r; [reflexivity|].
    rewrite (destroy_run c2). cbn [events snd]. rewrite app_nil_r. reflexivity.
  - rewrite (destroy_run c1 (rev_append e1 h)). cbn [events snd].
    rewrite app_nil_r. reflexivity.
Qed.

End Loading.

(** ** The two hooks *)

Section Hooks.

Variable E : Env.
Variable B : BaseClass.

Lemma CreatePlatformSurface_run
    (config attribs error : ptr) (c : GLContextEGLWayland) (h : Trace) :
  CreatePlatformSurface E config attribs error c h =
    if is_set (shim_answer E c h) then
      if surface_answer E config attribs c h =? EGL_NO_SURFACE then
        (surface_answer E config attribs c h, set_m_wl_window nullptr c,
         release_held c
         ++ [shim_event E c h; surface_event E config attribs c h;
             Ev_eglGetError (surface_error E config attribs c h);
             Ev_Error_SetString error
               (fmt_egl_failure "eglCreatePlatformWindowSurface()"
                  (surface_error E config attribs c h));
             Ev_wl_egl_window_destroy (m_wl_egl_window_destroy c)
               (shim_answer E c h)])
      else
        (surface_answer E config attribs c h,
         set_m_wl_window (shim_answer E c h) c,
         release_held c ++ [shim_event E c h; surface_event E config attribs c h])
    else
      (EGL_NO_SURFACE, set_m_wl_window (shim_answer E c h) c,
       release_held c
       ++ [shim_event E c h;
           Ev_Error_SetString error "wl_egl_window_create() failed"]).
Proof.
  unfold surface_error, surface_event, surface_answer, shim_event, shim_answer,
    release_held.
  unfold_methods.
  destruct (is_set (m_wl_window c)) eqn:Hheld; unfold_methods;
    cbn [base m_wi m_wl_window m_wl_egl_window_create m_wl_egl_window_destroy
         m_display set_m_wl_window].
  - set (w := env_wl_egl_window_create E _ _ _ _ _).
    destruct (is_set w) eqn:Hw; unfold_methods; [|reflexivity].
    set (s := env_eglCreatePlatformWindowSurface E _ _ _ _ _).
    destruct (s =? EGL_NO_SURFACE) eqn:Hs; unfold_methods; reflexivity.
  - set (w := env_wl_egl_window_create E _ _ _ _ _).
    destruct (is_set w) eqn:Hw; unfold_methods; [|reflexivity].
    set (s := env_eglCreatePlatformWindowSurface E _ _ _ _ _).
    destruct (s =? EGL_NO_SURFACE) eqn:Hs; unfold_methods; reflexivity.
Qed.

Lemma GetPlatformDisplay_run
    (attribs error : ptr) (c : GLContextEGLWayland) (h : Trace) :
  GetPlatformDisplay E B attribs error c h =
    if extension_advertised E h then
      if display_answer E attribs c h =? EGL_NO_DISPLAY then
        (display_answer E attribs c h, c,
         [check_event E h; display_event E attribs c h;
          Ev_eglGetError (display_error E attribs c h);
          Ev_Error_SetString error
            (fmt_egl_failure "eglGetPlatformDisplay()"
               (display_error E attribs c h))])
      else
        (display_answer E attribs c h, c,
         [check_event E h; display_event E attribs c h])
    else
      (EGL_NO_DISPLAY, c,
       [check_event E h;
        Ev_Error_SetString error
          (base_extension_error B "EGL_KHR_platform_wayland"
             "EGL_EXT_platform_wayland")]).
Proof.
  unfold display_error, display_event, display_answer, check_event,
    extension_advertised.
  unfold_methods.
  destruct (env_has_extension E h "EGL_KHR_platform_wayland"
            || env_has_extension E h "EGL_EXT_platform_wayland") eqn:Hok;
    unfold_methods; [|reflexivity].
  set (dpy := env_eglGetPlatformDisplay E _ _ _ _).
  destruct (dpy =? EGL_NO_DISPLAY) eqn:Hd; unfold_methods; reflexivity.
Qed.

Lemma ResizeSurface_run (w h : Z) (c : GLContextEGLWayland) (hist : Trace) :
  let r := run_base E B (base_ResizeSurface B w h) c
             (Ev_Base (BC_ResizeSurface w h)
              :: rev_append (resize_held c w h) hist) in
  ResizeSurface E B w h c hist =
    (tt, object r,
     resize_held c w h ++ Ev_Base (BC_ResizeSurface w h) :: events r).
Proof.
  cbv zeta. unfold resize_held. unfold_methods.
  destruct (is_set (m_wl_window c)) eqn:Hheld; unfold_methods;
    match goal with
    | |- context [run_base E B ?s ?c ?h] =>
        destruct (run_base E B s c h) as [[b c2] e2]
    end; cbn [app]; rewrite app_nil_r; reflexivity.
Qed.

End Hooks.

(** ** What the hooks keep true *)

Section Guarded.

Variable E : Env.
Variable B : BaseClass.

Lemma alive_history_app (a : list ptr) (t1 t2 : Trace) :
  alive_history a (t1 ++ t2)
  = alive_history a t1 ++ alive_history (alive_after a t1) t2.
Proof.
  revert a. induction t1 as [|e t1 IH]; intros a; cbn; [reflexivity|].
  now rewrite IH.
Qed.

Lemma alive_after_app (a : list ptr) (t1 t2 : Trace) :
  alive_after a (t1 ++ t2) = alive_after (alive_after a t1) t2.
Proof. unfold alive_after. apply fold_left_app. Qed.

Lemma guarded_app (c c1 c2 : GLContextEGLWayland) (t1 t2 : Trace) :
  guarded c t1 c1 -> guarded c1 t2 c2 -> guarded c (t1 ++ t2) c2.
Proof.
  intros [Hm1 Hc1 Hd1 Hr1 Hn1 Hq1 Ha1 Hh1] [Hm2 Hc2 Hd2 Hr2 Hn2 Hq2 Ha2 Hh2].
  constructor; try congruence.
  - intros Hc Hd. rewrite forallb_app, Hn1 by assumption.
    rewrite Hn2; [reflexivity | congruence | congruence].
  - now rewrite forallb_app, Hq1, Hq2.
  - rewrite alive_history_app, Hh1. apply Forall_app. now split.
  - now rewrite alive_after_app, Hh1.
Qed.

Lemma guarded_nil (c : GLContextEGLWayland) (b : GLContextEGL) :
  guarded c [] (set_base b c).
Proof. constructor; cbn; auto. Qed.

Lemma guarded_refl (c : GLContextEGLWayland) : guarded c [] c.
Proof. constructor; cbn; auto. Qed.

Lemma not_null_eqb (p : ptr) : p <> 0 -> (p =? 0) = false.
Proof. intros Hp. now apply Z.eqb_neq. Qed.

Lemma is_set_eqb (p : ptr) : is_set p = true -> (p =? 0) = false.
Proof. intros Hp. apply not_null_eqb. now apply is_set_true. Qed.

Ltac guarded_reduce :=
  cbn [app forallb fold_left alive_history alive_step calls_null_fn
       releases_null is_shim_resize is_dlclose remove_one negb andb
       set_m_wl_window m_wl_window m_wl_module m_wl_egl_window_create
       m_wl_egl_window_destroy m_wl_egl_window_resize List.length].

Ltac guarded_case :=
  repeat match goal with
         | H : is_set ?p = true |- _ =>
             lazymatch goal with
             | _ : (p =? 0) = false |- _ => fail
             | _ => pose proof (is_set_eqb _ H)
             end
         end;
  constructor;
  try (intros Hfc Hfd; apply not_null_eqb in Hfc; apply not_null_eqb in Hfd);
  unfold held, release_held, alive_after;
  repeat first
    [ progress guarded_reduce
    | rewrite Z.eqb_refl
    | match goal with
      | H : _ = true |- _ => rewrite H
      | H : _ = false |- _ => rewrite H
      end ];
  try reflexivity;
  repeat constructor.

Lemma CreatePlatformSurface_guarded
    (config attribs error : ptr) (c : GLContextEGLWayland) (h : Trace) :
  guarded c (events (CreatePlatformSurface E config attribs error c h))
            (object (CreatePlatformSurface E config attribs error c h)).
Proof.
  rewrite CreatePlatformSurface_run. unfold shim_event, surface_event.
  set (w := shim_answer E c h).
  set (s := surface_answer E config attribs c h).
  destruct (is_set (m_wl_window c)) eqn:Hheld, (is_set w) eqn:Hw;
    [destruct (s =? EGL_NO_SURFACE) eqn:Hs| |
     destruct (s =? EGL_NO_SURFACE) eqn:Hs|];
    cbn [events object fst snd]; guarded_case.
Qed.

Lemma GetPlatformDisplay_guarded
    (attribs error : ptr) (c : GLContextEGLWayland) (h : Trace) :
  guarded c (events (GetPlatformDisplay E B attribs error c h))
            (object (GetPlatformDisplay E B attribs error c h)).
Proof.
  rewrite GetPlatformDisplay_run. unfold check_event, display_event.
  destruct (is_set (m_wl_window c)) eqn:Hheld;
    (destruct (extension_advertised E h);
     [destruct (display_answer E attribs c h =? EGL_NO_DISPLAY)|]);
    cbn [events object fst snd]; guarded_case.
Qed.

Lemma bind_run {A C} (m : M A) (f : A -> M C) (c : GLContextEGLWayland)
    (h : Trace) :
  let r1 := m c h in
  let r2 := f (result r1) (object r1) (rev_append (events r1) h) in
  result (bind m f c h) = result r2
  /\ object (bind m f c h) = object r2
  /\ events (bind m f c h) = events r1 ++ events r2.
Proof.
  cbv zeta. unfold bind.
  destruct (m c h) as [[a c1] e1]. cbn [result object events fst snd].
  destruct (f a c1 (rev_append e1 h)) as [[b c2] e2]. cbn. auto.
Qed.

Lemma run_base_guarded (s : BaseScript) :
  forall (c : GLContextEGLWayland) (h : Trace),
    guarded c (events (run_base E B s c h)) (object (run_base E B s c h)).
Proof.
  induction s as [b | attribs error k IH | config attribs error k IH
                 | f k IH | k IH | tag k IH]; intros c h; cbn [run_base].
  - apply guarded_refl.
  - destruct (bind_run (GetPlatformDisplay E B attribs error)
                (fun dpy => run_base E B (k dpy)) c h) as (_ & -> & ->).
    eapply guarded_app; [apply GetPlatformDisplay_guarded | apply IH].
  - destruct (bind_run (CreatePlatformSurface E config attribs error)
                (fun s => run_base E B (k s)) c h) as (_ & -> & ->).
    eapply guarded_app; [apply CreatePlatformSurface_guarded | apply IH].
  - destruct (bind_run (assign (fun c => set_base (f (base c)) c))
                (fun _ => run_base E B k) c h) as (_ & -> & ->).
    eapply guarded_app; [apply guarded_nil | apply IH].
  - destruct (bind_run this (fun c => run_base E B (k (base c))) c h)
      as (_ & -> & ->).
    eapply guarded_app; [apply guarded_refl | apply IH].
  - destruct (bind_run (extern (fun h => env_base_effect E h tag)
                               (Ev_BaseEffect tag))
                (fun r => run_base E B (k r)) c h) as (_ & -> & ->).
    eapply guarded_app; [|apply IH].
    unfold extern; cbn [events object fst snd].
    destruct (is_set (m_wl_window c)) eqn:Hheld; guarded_case.
Qed.

Lemma CreatePlatformSurface_calls_guarded (calls : list (ptr * ptr * ptr)) :
  forall (c : GLContextEGLWayland) (h : Trace),
    guarded c (events (CreatePlatformSurface_calls E calls c h))
              (object (CreatePlatformSurface_calls E calls c h)).
Proof.
  induction calls as [|[[config attribs] error] calls IH]; intros c h;
    cbn [CreatePlatformSurface_calls].
  - apply guarded_refl.
  - destruct (bind_run (CreatePlatformSurface E config attribs error)
                (fun s => ss <- CreatePlatformSurface_calls E calls ;;
                          ret (s :: ss)) c h) as (_ & -> & ->).
    eapply guarded_app; [apply CreatePlatformSurface_guarded |].
    match goal with
    | |- guarded ?c1 (events (bind ?m ?f ?c1 ?h1)) _ =>
        destruct (bind_run m f c1 h1) as (_ & -> & ->)
    end.
    eapply guarded_app; [apply IH | apply guarded_refl].
Qed.

End Guarded.

(** ** Surface creation *)

Section SurfaceCreation.

Variable E : Env.
Variable B : BaseClass.

(** C2.  Over any run of [CreatePlatformSurface] calls on one object, at
    most one shim window is alive after every single event, and the one
    alive at the end is the one the object holds.  Each call first destroys
    the shim window it holds, if any, then makes the one create call of the
    call; afterwards the object holds the new shim window or none. *)
Theorem at_most_one_shim_window_alive
    (calls : list (ptr * ptr * ptr)) (c : GLContextEGLWayland) (h : Trace) :
  Forall (fun a => (List.length a <= 1)%nat)
         (alive_history (held c) (events (CreatePlatformSurface_calls E calls c h)))
  /\ alive_after (held c) (events (CreatePlatformSurface_calls E calls c h))
     = held (object (CreatePlatformSurface_calls E calls c h))
  /\ forall config attribs error c0 h0,
       exists rest,
         events (CreatePlatformSurface E config attribs error c0 h0)
         = release_held c0 ++ shim_event E c0 h0 :: rest
         /\ forallb (fun e => negb (is_shim_create e)) rest = true
         /\ forallb (fun e => negb (is_shim_create e)) (release_held c0) = true
         /\ (m_wl_window (object (CreatePlatformSurface E config attribs error c0 h0))
             = shim_answer E c0 h0
             \/ m_wl_window (object (CreatePlatformSurface E config attribs error c0 h0))
                = nullptr).
Proof.
  pose proof (CreatePlatformSurface_calls_guarded E calls c h) as G.
  split; [apply (g_alive G)|]. split; [apply (g_held G)|].
  intros config attribs error c0 h0.
  rewrite CreatePlatformSurface_run.
  assert (forallb (fun e => negb (is_shim_create e)) (release_held c0) = true)
    as Hpre.
  { unfold release_held. destruct (is_set (m_wl_window c0)); reflexivity. }
  destruct (is_set (shim_answer E c0 h0));
    [destruct (surface_answer E config attribs c0 h0 =? EGL_NO_SURFACE)|];
    cbn [events object fst snd set_m_wl_window m_wl_window];
    eexists; (split; [reflexivity|]); cbn; auto.
Qed.

(** C3.  When the shim window was created and the platform layer then hands
    out no window surface, [CreatePlatformSurface] asks for the platform
    layer's error code, reports it through the error sink, destroys the shim
    window it has just created, stores a null shim handle and returns
    [EGL_NO_SURFACE]; the object holds no shim window afterwards. *)
Theorem failed_surface_releases_new_shim
    (config attribs error : ptr) (c : GLContextEGLWayland) (h : Trace) :
  shim_answer E c h <> nullptr ->
  surface_answer E config attribs c h = EGL_NO_SURFACE ->
  let r := CreatePlatformSurface E config attribs error c h in
  result r = EGL_NO_SURFACE
  /\ m_wl_window (object r) = nullptr
  /\ held (object r) = []
  /\ events r =
       release_held c
       ++ [shim_event E c h; surface_event E config attribs c h;
           Ev_eglGetError (surface_error E config attribs c h);
           Ev_Error_SetString error
             ("eglCreatePlatformWindowSurface() for Wayland failed: "
              ++ fmt_dec (surface_error E config attribs c h)
              ++ " (0x" ++ fmt_HEX (surface_error E config attribs c h) ++ ")")%string;
           Ev_wl_egl_window_destroy (m_wl_egl_window_destroy c)
             (shim_answer E c h)]
  /\ alive_after (held c) (events r) = [].
Proof.
  intros Hw Hs r. subst r.
  pose proof (CreatePlatformSurface_guarded E config attribs error c h) as G.
  rewrite (g_held G). clear G.
  rewrite CreatePlatformSurface_run.
  apply is_set_true in Hw. rewrite Hw, Hs. cbn [Z.eqb EGL_NO_SURFACE].
  cbn [result object events fst snd set_m_wl_window m_wl_window].
  repeat split.
Qed.

End SurfaceCreation.

(** ** Formatting: the digits written read back as the number *)

Section Formatting.

Lemma read_HEX_digits_from (d : Hexadecimal.uint) :
  forall p : positive,
    read_digits 16 HEX_digit (Z.pos p)
      (upper_hex (HexadecimalString.NilEmpty.string_of_uint d))
    = Some (Z.pos (Pos.of_hex_uint_acc d p)).
Proof.
  induction d; intros p;
    cbn [HexadecimalString.NilEmpty.string_of_uint upper_hex read_digits
         Pos.of_hex_uint_acc];
    try reflexivity;
    match goal with
    | |- context [HEX_digit ?c] =>
        let v := eval vm_compute in (HEX_digit c) in
        change (HEX_digit c) with v
    end;
    cbv iota beta;
    rewrite <- IHd; f_equal; lia.
Qed.

Lemma read_HEX_digits (d : Hexadecimal.uint) :
  read_digits 16 HEX_digit 0
    (upper_hex (HexadecimalString.NilEmpty.string_of_uint d))
  = Some (Z.of_hex_uint d).
Proof.
  unfold Z.of_hex_uint.
  induction d;
    cbn [HexadecimalString.NilEmpty.string_of_uint upper_hex read_digits
         Pos.of_hex_uint];
    try reflexivity;
    match goal with
    | |- context [HEX_digit ?c] =>
        let v := eval vm_compute in (HEX_digit c) in
        change (HEX_digit c) with v
    end;
    cbv iota beta; cbn [Z.mul Z.add Z.of_N];
    first [exact IHd | apply read_HEX_digits_from].
Qed.

Lemma read_HEX_fmt_HEX (n : Z) : read_HEX (fmt_HEX n) = Some n.
Proof.
  unfold fmt_HEX, read_HEX. rewrite <- (HexadecimalZ.of_to n) at 2.
  destruct (Z.to_hex_int n) as [d | d];
    cbn [HexadecimalString.NilZero.string_of_int Z.of_hex_int].
  - pose proof (read_HEX_digits d) as Hd.
    destruct d; try exact Hd; reflexivity.
  - pose proof (read_HEX_digits d) as Hd.
    destruct d;
      cbn [HexadecimalString.NilZero.string_of_uint
           HexadecimalString.NilEmpty.string_of_uint upper_hex] in *;
      unfold read_number;
      change (upper_hex_digit "-") with "-"%char;
      cbn [Ascii.eqb Bool.eqb]; try reflexivity;
      cbv iota beta; try (rewrite Hd; reflexivity).
Qed.

Lemma read_dec_digits_from (d : Decimal.uint) :
  forall p : positive,
    read_digits 10 dec_digit (Z.pos p)
      (DecimalString.NilEmpty.string_of_uint d)
    = Some (Z.pos (Pos.of_uint_acc d p)).
Proof.
  induction d; intros p;
    cbn [DecimalString.NilEmpty.string_of_uint read_digits Pos.of_uint_acc];
    try reflexivity;
    match goal with
    | |- context [dec_digit ?c] =>
        let v := eval vm_compute in (dec_digit c) in
        change (dec_digit c) with v
    end;
    cbv iota beta;
    rewrite <- IHd; f_equal; lia.
Qed.

Lemma read_dec_digits (d : Decimal.uint) :
  read_digits 10 dec_digit 0 (DecimalString.NilEmpty.string_of_uint d)
  = Some (Z.of_uint d).
Proof.
  unfold Z.of_uint.
  induction d;
    cbn [DecimalString.NilEmpty.string_of_uint read_digits Pos.of_uint];
    try reflexivity;
    match goal with
    | |- context [dec_digit ?c] =>
        let v := eval vm_compute in (dec_digit c) in
        change (dec_digit c) with v
    end;
    cbv iota beta; cbn [Z.mul Z.add Z.of_N];
    first [exact IHd | apply read_dec_digits_from].
Qed.

Lemma read_dec_fmt_dec (n : Z) : read_dec (fmt_dec n) = Some n.
Proof.
  unfold fmt_dec, read_dec. rewrite <- (DecimalZ.of_to n) at 2.
  destruct (Z.to_int n) as [d | d];
    cbn [DecimalString.NilZero.string_of_int Z.of_int].
  - pose proof (read_dec_digits d) as Hd.
    destruct d; try exact Hd; reflexivity.
  - pose proof (read_dec_digits d) as Hd.
    destruct d;
      cbn [DecimalString.NilZero.string_of_uint
           DecimalString.NilEmpty.string_of_uint] in *;
      unfold read_number;
      cbn [Ascii.eqb Bool.eqb]; try reflexivity;
      cbv iota beta; try (rewrite Hd; reflexivity).
Qed.

End Formatting.

(** ** Display acquisition and resizing *)

Section DisplayAndResize.

Variable E : Env.
Variable B : BaseClass.

(** C4.  When neither extension name is advertised, [GetPlatformDisplay]
    returns [EGL_NO_DISPLAY] and its only events are the failed check and the
    error it reports: [eglGetPlatformDisplay] is not called.  When the check
    passes and [eglGetPlatformDisplay] hands out no display, it asks for the
    platform layer's error code, reports it in decimal and in hexadecimal
    through the error sink, and returns [EGL_NO_DISPLAY]: the first numeral
    of the message reads back, over the digits [0]..[9], as the error code,
    and the numeral after ["0x"] reads back, over the digits [0]..[9] and
    [A]..[F], as the error code. *)
Theorem GetPlatformDisplay_failure_paths
    (attribs error : ptr) (c : GLContextEGLWayland) (h : Trace) :
  let r := GetPlatformDisplay E B attribs error c h in
  (extension_advertised E h = false ->
     result r = EGL_NO_DISPLAY
     /\ existsb is_display_acquire (events r) = false
     /\ events r =
          [Ev_CheckExtension "EGL_KHR_platform_wayland"
             "EGL_EXT_platform_wayland" false;
           Ev_Error_SetString error
             (base_extension_error B "EGL_KHR_platform_wayland"
                "EGL_EXT_platform_wayland")])
  /\ (extension_advertised E h = true ->
      display_answer E attribs c h = EGL_NO_DISPLAY ->
      result r = EGL_NO_DISPLAY
      /\ exists dec hex,
           events r =
             [Ev_CheckExtension "EGL_KHR_platform_wayland"
                "EGL_EXT_platform_wayland" true;
              display_event E attribs c h;
              Ev_eglGetError (display_error E attribs c h);
              Ev_Error_SetString error
                ("eglGetPlatformDisplay() for Wayland failed: "
                 ++ dec ++ " (0x" ++ hex ++ ")")%string]
           /\ dec = fmt_dec (display_error E attribs c h)
           /\ hex = fmt_HEX (display_error E attribs c h)
           /\ read_dec dec = Some (display_error E attribs c h)
           /\ read_HEX hex = Some (display_error E attribs c h)).
Proof.
  intros r. subst r. rewrite GetPlatformDisplay_run. unfold check_event.
  split.
  - intros ->. cbn. auto.
  - intros -> ->. cbn. split; [reflexivity|].
    exists (fmt_dec (display_error E attribs c h)),
           (fmt_HEX (display_error E attribs c h)).
    split; [reflexivity|]. split; [reflexivity|]. split; [reflexivity|].
    split; [apply read_dec_fmt_dec | apply read_HEX_fmt_HEX].
Qed.

(** C7, as the code has it.  [ResizeSurface w h] passes [w] and [h],
    converted to the [int] parameters of the shim resize function, and the
    offsets [0] and [0], exactly when the object holds a shim window, then
    enters the base class resize with [w] and [h] in every case; nothing the
    base class does afterwards is another shim resize.  The shim receives
    [(w, h, 0, 0)] itself when both sizes are below [2^31]; a size from
    [2^31] on arrives as that size minus [2^32]. *)
Theorem ResizeSurface_resizes_shim_then_base
    (w h : Z) (c : GLContextEGLWayland) (hist : Trace) :
  (exists rest,
      events (ResizeSurface E B w h c hist) =
        (if is_set (m_wl_window c)
         then [Ev_wl_egl_window_resize (m_wl_egl_window_resize c)
                 (m_wl_window c) (int_of_u32 w) (int_of_u32 h) 0 0]
         else [])
        ++ Ev_Base (BC_ResizeSurface w h) :: rest
      /\ forallb (fun e => negb (is_shim_resize e)) rest = true)
  /\ (0 <= w < 2 ^ 31 -> 0 <= h < 2 ^ 31 ->
      exists rest,
        events (ResizeSurface E B w h c hist) =
          (if is_set (m_wl_window c)
           then [Ev_wl_egl_window_resize (m_wl_egl_window_resize c)
                   (m_wl_window c) w h 0 0]
           else [])
          ++ Ev_Base (BC_ResizeSurface w h) :: rest
        /\ forallb (fun e => negb (is_shim_resize e)) rest = true)
  /\ (forall n, 2 ^ 31 <= n < 2 ^ 32 -> int_of_u32 n = n - 2 ^ 32).
Proof.
  assert (forallb (fun e => negb (is_shim_resize e))
            (events (run_base E B (base_ResizeSurface B w h) c
                       (Ev_Base (BC_ResizeSurface w h)
                        :: rev_append (resize_held c w h) hist))) = true)
    as Hrest.
  { match goal with
    | |- context [run_base E B ?s ?c ?h] =>
        pose proof (g_quiet (run_base_guarded E B s c h)) as Hq
    end.
    rewrite forallb_forall in Hq. apply forallb_forall. intros e He.
    specialize (Hq e He). now destruct (is_shim_resize e). }
  rewrite ResizeSurface_run. cbn [events snd]. unfold resize_held in *.
  split; [|split].
  - eexists. split; [reflexivity | exact Hrest].
  - intros Hw Hh. eexists. split; [|exact Hrest].
    now rewrite (int_of_u32_small Hw), (int_of_u32_small Hh).
  - apply int_of_u32_large.
Qed.

End DisplayAndResize.

(** ** The two factories *)

Section Factories.

Variable E : Env.
Variable B : BaseClass.

Lemma destroy_events (c : GLContextEGLWayland) (h : Trace) :
  events (destroy c h) =
    release_held c
    ++ (if is_set (m_wl_module c) then [Ev_dlclose (m_wl_module c)] else [])
    ++ [Ev_Base BC_Destructor].
Proof.
  unfold release_held. unfold_methods.
  destruct (is_set (m_wl_window c)), (is_set (m_wl_module c)); reflexivity.
Qed.

(** [LoadModule] talks to the loader and to the log, and to nobody else. *)
Lemma LoadModule_events_quiet (c : GLContextEGLWayland) (h : Trace) :
  forallb (fun e => negb (is_shim_create e) && negb (is_surface_create e)
                    && negb (is_display_acquire e) && negb (is_dlclose e)
                    && negb (is_error_sink e))
          (events (LoadModule E c h)) = true.
Proof.
  pose proof (LoadModule_run E c h) as Hrun. cbv zeta in Hrun.
  destruct (loader_answers E h) as [[[m f1] f2] f3]. rewrite Hrun.
  destruct (is_set m), (is_set f1), (is_set f2), (is_set f3); reflexivity.
Qed.

Lemma not_true_false (b : bool) : b <> true -> b = false.
Proof. now destruct b. Qed.

(** C5.  When the shim library does not open or one of its three symbols
    does not resolve, [Create] returns [nullptr]; all it does is the loader
    requests, closing the library if it had opened, and the destruction of
    the object: no shim window and no platform surface is created. *)
Theorem Create_fails_when_library_fails
    (wi : WindowInfo) (fns : ShimFunctionTable) (versions : list Version)
    (error : ptr) (h : Trace) :
  ~ (library_opens E h /\ symbols_resolve E h) ->
  let created := Create E B wi fns versions error h in
  fst created = None
  /\ snd created =
       events (LoadModule E (GLContextEGLWayland_new B wi fns) h)
       ++ (if is_set (opened_library E h)
           then [Ev_dlclose (opened_library E h)] else [])
       ++ [Ev_Base BC_Destructor]
  /\ forallb (fun e => negb (is_shim_create e) && negb (is_surface_create e))
             (snd created) = true.
Proof.
  intros Hfail created. subst created. unfold Create.
  set (c := GLContextEGLWayland_new B wi fns).
  pose proof (Create_on_context_run E B versions error c h) as Hrun.
  cbv zeta in Hrun. rewrite Hrun. clear Hrun.
  assert (result (LoadModule E c h) = false) as Hr.
  { apply not_true_false. intros Hok. apply Hfail.
    now apply (LoadModule_result E c h). }
  rewrite Hr. cbn [fst snd].
  rewrite destroy_events.
  destruct (LoadModule_object E c h) as (Hw & _ & Hm & _).
  unfold release_held. rewrite Hw, Hm. cbn [m_wl_window c GLContextEGLWayland_new].
  cbn [is_set nullptr Z.eqb negb app].
  split; [reflexivity|]. split; [reflexivity|].
  rewrite forallb_app. apply andb_true_iff. split.
  - pose proof (LoadModule_events_quiet c h) as Hq.
    rewrite forallb_forall in Hq. apply forallb_forall. intros e He.
    specialize (Hq e He).
    destruct (is_shim_create e), (is_surface_create e); auto.
  - destruct (is_set (opened_library E h)); reflexivity.
Qed.

(** C6.  [LoadModule] succeeds exactly when the library opens and the three
    symbols resolve.  When the library opens and a symbol is missing it
    fails, keeps the open library handle in the object without closing it,
    and the destructor closes that handle.  An object whose [LoadModule]
    failed is handed out by neither factory. *)
Theorem LoadModule_succeeds_iff_library_and_symbols
    (c : GLContextEGLWayland) (h : Trace) :
  (result (LoadModule E c h) = true
   <-> library_opens E h /\ symbols_resolve E h)
  /\ (library_opens E h -> ~ symbols_resolve E h ->
      result (LoadModule E c h) = false
      /\ m_wl_module (object (LoadModule E c h)) = opened_library E h
      /\ existsb is_dlclose (events (LoadModule E c h)) = false
      /\ forall h',
           events (destructor_body (object (LoadModule E c h)) h')
           = release_held (object (LoadModule E c h))
             ++ [Ev_dlclose (opened_library E h)])
  /\ (result (LoadModule E c h) = false ->
      (forall wi fns versions error,
          fst (Create E B wi fns versions error h) = None)
      /\ (forall self wi fns,
          fst (CreateSharedContext E B self wi fns h) = None)).
Proof.
  split; [apply LoadModule_result|]. split.
  - intros Hopen Hsym.
    assert (result (LoadModule E c h) = false) as Hr.
    { apply not_true_false. intros Hok.
      apply (LoadModule_result E c h) in Hok. tauto. }
    destruct (LoadModule_object E c h) as (Hw & _ & Hm & _).
    split; [exact Hr|]. split; [exact Hm|]. split.
    + pose proof (LoadModule_events_quiet c h) as Hq.
      rewrite forallb_forall in Hq.
      destruct (existsb is_dlclose (events (LoadModule E c h))) eqn:Hex;
        [|reflexivity].
      apply existsb_exists in Hex. destruct Hex as (e & He & Hd).
      specialize (Hq e He). rewrite Hd in Hq.
      destruct (is_shim_create e), (is_surface_create e),
        (is_display_acquire e); discriminate.
    + intros h'.
      rewrite destructor_body_run. cbn [events snd].
      rewrite Hm. apply is_set_true in Hopen. unfold library_opens in Hopen.
      rewrite Hopen. reflexivity.
  - intros Hr. split.
    + intros wi fns versions error. unfold Create.
      pose proof (Create_on_context_run E B versions error
                    (GLContextEGLWayland_new B wi fns) h) as Hrun.
      cbv zeta in Hrun. rewrite Hrun.
      destruct (LoadModule_result_any E c (GLContextEGLWayland_new B wi fns) h)
        as (<- & _).
      rewrite Hr. reflexivity.
    + intros self wi fns. unfold CreateSharedContext.
      match goal with
      | |- context [CreateSharedContext_on_context E B ?v ?s ?c0 h] =>
          pose proof (CreateSharedContext_on_context_run E B v s c0 h) as Hrun;
          cbv zeta in Hrun; rewrite Hrun;
          destruct (LoadModule_result_any E c c0 h) as (<- & _)
      end.
      rewrite Hr. reflexivity.
Qed.

Lemma base_call_run (call : BaseCall) (s : BaseScript)
    (c : GLContextEGLWayland) (h : Trace) :
  let r := run_base E B s c (Ev_Base call :: h) in
  base_call E B call s c h = (result r, object r, Ev_Base call :: events r).
Proof.
  cbv zeta. unfold base_call, bind, emit. cbn [rev_append app].
  destruct (run_base E B s c (Ev_Base call :: h)) as [[b c2] e2]. reflexivity.
Qed.

(** C8.  [CreateSharedContext] starts the new object from the invoking
    object's display handle and surfaceless flag, runs [LoadModule] on it (the
    library handle it ends up with is the one its own [dlopen] returned, and
    no display is asked for), and then enters the base class
    [CreateContextAndSurface] with the invoking object's version and context
    and [make_current = false].  It returns the new object when both steps
    succeed and [nullptr] when [LoadModule] fails (the base class is then not
    entered) or the base class step fails. *)
Theorem CreateSharedContext_shares_display_and_owns_library
    (self : GLContextEGLWayland) (wi : WindowInfo) (fns : ShimFunctionTable)
    (h : Trace) :
  let delegation :=
    BC_CreateContextAndSurface (m_version (base self)) (m_context (base self))
      false in
  let r1 := LoadModule E (shared_context B self wi fns) h in
  let r2 := run_base E B
              (base_CreateContextAndSurface B (m_version (base self))
                 (m_context (base self)) false)
              (object r1) (Ev_Base delegation :: rev_append (events r1) h) in
  let shared := CreateSharedContext E B self wi fns h in
  m_display (base (object r1)) = m_display (base self)
  /\ m_supports_surfaceless (base (object r1))
     = m_supports_surfaceless (base self)
  /\ m_wi (base (object r1)) = m_wi (base_construct B wi)
  /\ m_wl_module (object r1) = opened_library E h
  /\ existsb is_display_acquire (events r1) = false
  /\ (result r1 = false ->
      fst shared = None
      /\ snd shared
         = events r1
           ++ events (destroy (object r1) (rev_append (events r1) h)))
  /\ (result r1 = true ->
      (exists rest,
          snd shared = events r1 ++ Ev_Base delegation :: events r2 ++ rest)
      /\ (result r2 = true -> shared = (Some (object r2),
                                        events r1 ++ Ev_Base delegation :: events r2))
      /\ (result r2 = false -> fst shared = None)).
Proof.
  cbv zeta. unfold CreateSharedContext.
  set (c := shared_context B self wi fns).
  pose proof (CreateSharedContext_on_context_run E B (m_version (base self))
                (m_context (base self)) c h) as Hrun.
  cbv zeta in Hrun. rewrite Hrun. clear Hrun.
  unfold CreateContextAndSurface. rewrite base_call_run.
  cbn [result object events fst snd].
  destruct (LoadModule_object E c h) as (_ & Hb & Hm & _).
  rewrite Hb.
  split; [reflexivity|]. split; [reflexivity|]. split; [reflexivity|].
  split; [exact Hm|]. split.
  { pose proof (LoadModule_events_quiet c h) as Hq.
    rewrite forallb_forall in Hq.
    destruct (existsb is_display_acquire (events (LoadModule E c h))) eqn:Hex;
      [|reflexivity].
    apply existsb_exists in Hex. destruct Hex as (e & He & Hd).
    specialize (Hq e He). rewrite Hd in Hq.
    destruct (is_shim_create e), (is_surface_create e); discriminate. }
  split.
  - intros ->. split; reflexivity.
  - intros ->. split; [|split].
    + match goal with
      | |- context [if ?b then _ else _] => destruct b
      end; cbn [snd].
      * exists []. now rewrite app_nil_r.
      * eexists. cbn [app]. reflexivity.
    + intros ->. reflexivity.
    + intros ->. reflexivity.
Qed.

End Factories.

(** ** The shim window never outlives what it needs *)

Section Invariant.

Variable E : Env.
Variable B : BaseClass.

Lemma guarded_loaded (c c' : GLContextEGLWayland) (evs : Trace) :
  guarded c evs c' -> loaded c -> loaded c'.
Proof.
  intros [Hm Hc Hd Hr _ _ _ _] (H1 & H2 & H3 & H4).
  unfold loaded. rewrite Hm, Hc, Hd, Hr. auto.
Qed.

Lemma ResizeSurface_loaded (w h : Z) (c : GLContextEGLWayland) (hist : Trace) :
  loaded c -> loaded (object (ResizeSurface E B w h c hist)).
Proof.
  rewrite ResizeSurface_run. cbn [object fst snd].
  apply guarded_loaded with (1 := run_base_guarded E B _ _ _).
Qed.

(** A [Fresh] or [Failed] object holds no shim window; a [Ready] one has the
    library open and the table resolved. *)
Lemma lifecycle_invariant (ph : Phase) (c : GLContextEGLWayland) :
  lifecycle E B ph c ->
  match ph with
  | Ready => loaded c
  | Fresh | Failed => m_wl_window c = nullptr
  end.
Proof.
  induction 1 as [wi fns | self wi fns _ _ | c h _ IH | c s h _ IH
                 | c w h hist _ IH].
  - reflexivity.
  - reflexivity.
  - destruct (LoadModule_object E c h) as (Hw & _ & _ & Hl).
    destruct (result (LoadModule E c h)); [now apply Hl | congruence].
  - apply guarded_loaded with (1 := run_base_guarded E B s c h) (2 := IH).
  - now apply ResizeSurface_loaded.
Qed.

(** What the factories hand out is [Ready]. *)
Lemma Create_lifecycle wi fns versions error h c evs :
  Create E B wi fns versions error h = (Some c, evs) -> lifecycle E B Ready c.
Proof.
  unfold Create.
  pose proof (Create_on_context_run E B versions error
                (GLContextEGLWayland_new B wi fns) h) as Hrun.
  cbv zeta in Hrun. rewrite Hrun. clear Hrun.
  pose proof (life_LoadModule h (life_new E B wi fns)) as Hl.
  destruct (result (LoadModule E (GLContextEGLWayland_new B wi fns) h));
    [|discriminate].
  unfold Initialize. rewrite base_call_run. cbn [result object fst snd].
  match goal with
  | |- context [if ?b then _ else _] => destruct b
  end; [|discriminate].
  intros [= <- _]. now apply life_base.
Qed.

Lemma CreateSharedContext_lifecycle self wi fns h c evs :
  lifecycle E B Ready self ->
  CreateSharedContext E B self wi fns h = (Some c, evs) ->
  lifecycle E B Ready c.
Proof.
  intros Hself. unfold CreateSharedContext.
  pose proof (CreateSharedContext_on_context_run E B (m_version (base self))
                (m_context (base self)) (shared_context B self wi fns) h)
    as Hrun.
  cbv zeta in Hrun. rewrite Hrun. clear Hrun.
  pose proof (life_LoadModule h (life_shared wi fns Hself)) as Hl.
  destruct (result (LoadModule E (shared_context B self wi fns) h));
    [|discriminate].
  unfold CreateContextAndSurface. rewrite base_call_run.
  cbn [result object fst snd].
  match goal with
  | |- context [if ?b then _ else _] => destruct b
  end; [|discriminate].
  intros [= <- _]. now apply life_base.
Qed.

(** C10.  In every state an object goes through, a non-null shim window
    handle comes with a non-null library handle and three non-null function
    pointers; hence neither the destructor nor [ResizeSurface], run in that
    state, calls through a null function pointer. *)
Theorem shim_window_implies_library_and_functions
    (ph : Phase) (c : GLContextEGLWayland) :
  lifecycle E B ph c ->
  (m_wl_window c <> nullptr ->
   m_wl_module c <> nullptr
   /\ m_wl_egl_window_create c <> nullptr
   /\ m_wl_egl_window_destroy c <> nullptr
   /\ m_wl_egl_window_resize c <> nullptr)
  /\ (forall h,
        forallb (fun e => negb (calls_null_fn e))
                (events (destructor_body c h)) = true)
  /\ (forall w h hist,
        forallb (fun e => negb (is_shim_resize e && calls_null_fn e))
                (events (ResizeSurface E B w h c hist)) = true)
  /\ (forall w h hist,
        ph = Ready ->
        forallb (fun e => negb (calls_null_fn e))
                (events (ResizeSurface E B w h c hist)) = true).
Proof.
  intros Hlife. apply lifecycle_invariant in Hlife.
  assert (m_wl_window c = nullptr \/ loaded c) as Hinv
    by (destruct ph; auto).
  split; [|split; [|split]].
  - intros Hw. destruct Hinv as [Hnull | Hl]; [congruence | exact Hl].
  - intros h. rewrite destructor_body_run. cbn [events snd].
    unfold release_held.
    destruct Hinv as [-> | (_ & _ & Hd & _)]; cbn.
    + destruct (is_set (m_wl_module c)); reflexivity.
    + apply not_null_eqb in Hd.
      destruct (is_set (m_wl_window c)), (is_set (m_wl_module c)); cbn;
        rewrite ?Hd; reflexivity.
  - intros w h hist. rewrite ResizeSurface_run. cbn [events snd].
    rewrite forallb_app. apply andb_true_iff. split.
    + unfold resize_held.
      destruct Hinv as [-> | (_ & _ & _ & Hr)]; [reflexivity|].
      apply not_null_eqb in Hr.
      destruct (is_set (m_wl_window c)); cbn; rewrite ?Hr; reflexivity.
    + cbn [forallb is_shim_resize negb andb].
      pose proof (g_quiet (run_base_guarded E B (base_ResizeSurface B w h) c
                             (Ev_Base (BC_ResizeSurface w h)
                              :: rev_append (resize_held c w h) hist))) as Hq.
      rewrite forallb_forall in Hq. apply forallb_forall. intros e He.
      specialize (Hq e He). now destruct (is_shim_resize e).
  - intros w h hist ->. rewrite ResizeSurface_run. cbn [events snd].
    destruct Hlife as (_ & Hc & Hd & Hr).
    rewrite forallb_app. apply andb_true_iff. split.
    + unfold resize_held. apply not_null_eqb in Hr.
      destruct (is_set (m_wl_window c)); cbn; rewrite ?Hr; reflexivity.
    + cbn [forallb calls_null_fn negb andb].
      apply (g_calls (run_base_guarded E B _ _ _)); assumption.
Qed.

End Invariant.

(** ** Reporting failures *)

Section Reporting.

Variable E : Env.
Variable B : BaseClass.

(** C9, as the code has it.  Every failure writes its message before the
    method returns.  A library that does not open, or lacks a symbol, is
    reported on the error log line ([Console.Error]) and not through the
    error sink.  A missing extension, a platform call that hands out no
    display or no surface, and a failed shim creation are reported through
    the error sink, on the [error] object the caller passed. *)
Theorem failures_are_reported_where_they_happen :
  (forall c h,
      result (LoadModule E c h) = false ->
      existsb is_error_sink (events (LoadModule E c h)) = false
      /\ exists pre msg,
           events (LoadModule E c h) = pre ++ [Ev_Console_Error msg]
           /\ (msg = "Failed to load libwayland-egl.so.1."%string
               \/ msg = "Failed to load one or more functions from libwayland-egl.so.1."%string))
  /\ (forall attribs error c h,
      result (GetPlatformDisplay E B attribs error c h) = EGL_NO_DISPLAY ->
      exists pre msg,
        events (GetPlatformDisplay E B attribs error c h)
        = pre ++ [Ev_Error_SetString error msg]
        /\ (msg = base_extension_error B "EGL_KHR_platform_wayland"
                    "EGL_EXT_platform_wayland"
            \/ msg = fmt_egl_failure "eglGetPlatformDisplay()"
                       (display_error E attribs c h)))
  /\ (forall config attribs error c h,
      result (CreatePlatformSurface E config attribs error c h)
      = EGL_NO_SURFACE ->
      exists pre msg post,
        events (CreatePlatformSurface E config attribs error c h)
        = pre ++ Ev_Error_SetString error msg :: post
        /\ (msg = "wl_egl_window_create() failed"%string
            \/ msg = fmt_egl_failure "eglCreatePlatformWindowSurface()"
                       (surface_error E config attribs c h))).
Proof.
  split; [|split].
  - intros c h. pose proof (LoadModule_run E c h) as Hrun. cbv zeta in Hrun.
    destruct (loader_answers E h) as [[[m f1] f2] f3]. rewrite Hrun.
    destruct (is_set m); [destruct (is_set f1 && is_set f2 && is_set f3)|];
      cbn [result events fst snd]; try discriminate; intros _.
    + split; [reflexivity|]. eexists. eexists. split; [reflexivity|].
      right. reflexivity.
    + split; [reflexivity|].
      exists [Ev_dlopen WAYLAND_EGL_MODNAME (Z.lor RTLD_NOW RTLD_GLOBAL) m].
      eexists. split; [reflexivity|]. left. reflexivity.
  - intros attribs error c h. rewrite GetPlatformDisplay_run.
    destruct (extension_advertised E h);
      [destruct (display_answer E attribs c h =? EGL_NO_DISPLAY) eqn:Hd|];
      cbn [result events fst snd]; intros Hr.
    + exists [check_event E h; display_event E attribs c h;
              Ev_eglGetError (display_error E attribs c h)].
      eexists. split; [reflexivity|]. now right.
    + rewrite Hr in Hd. discriminate.
    + exists [check_event E h]. eexists. split; [reflexivity|]. now left.
  - intros config attribs error c h. rewrite CreatePlatformSurface_run.
    destruct (is_set (shim_answer E c h));
      [destruct (surface_answer E config attribs c h =? EGL_NO_SURFACE) eqn:Hs|];
      cbn [result events fst snd]; intros Hr.
    + exists (release_held c ++ [shim_event E c h;
                                 surface_event E config attribs c h;
                                 Ev_eglGetError (surface_error E config attribs c h)]).
      eexists. eexists. split; [|now right].
      rewrite <- app_assoc. reflexivity.
    + rewrite Hr in Hs. discriminate.
    + exists (release_held c ++ [shim_event E c h]).
      eexists. exists []. split; [|now left].
      rewrite <- app_assoc. reflexivity.
Qed.

End Reporting.

(** ** The theorems at work on the sample worlds *)

Example fmt_dec_bad_alloc : fmt_dec 0x3003 = "12291"%string.
Proof. reflexivity. Qed.

Example fmt_HEX_context_lost : fmt_HEX 0x300E = "300E"%string.
Proof. reflexivity. Qed.

Example destructor_order_on_live_object :
  events (destructor_body Sample.live [])
  = [Ev_wl_egl_window_destroy 0x7200 0x9000; Ev_dlclose 0x7000].
Proof. reflexivity. Qed.

Example resize_on_live_object :
  events (ResizeSurface Sample.good Sample.base_class 1280 896 Sample.live [])
  = [Ev_wl_egl_window_resize 0x7300 0x9000 1280 896 0 0;
     Ev_Base (BC_ResizeSurface 1280 896)].
Proof. reflexivity. Qed.

Example recreation_destroys_first :
  events (CreatePlatformSurface Sample.good 0 0 Sample.error Sample.live [])
  = [Ev_wl_egl_window_destroy 0x7200 0x9000;
     Ev_wl_egl_window_create 0x7100 0xA000 640 448 0x9000;
     Ev_eglCreatePlatformWindowSurface 0 0 0x9000 0 0x5F00].
Proof. reflexivity. Qed.

(** C9, as it was stated, fails where the library does not open: [Create]
    returns [nullptr], the failure is on the log, and the error sink has
    received nothing. *)
Lemma library_failure_bypasses_error_sink :
  let created :=
    Create Sample.no_library Sample.base_class Sample.window Sample.unset
      [Sample.v33] Sample.error [] in
  fst created = None
  /\ snd created
     = [Ev_dlopen "libwayland-egl.so.1" 258 0;
        Ev_Console_Error "Failed to load libwayland-egl.so.1.";
        Ev_Base BC_Destructor]
  /\ existsb is_error_sink (snd created) = false
  /\ ~ (forall (E : Env) (c : GLContextEGLWayland) (h : Trace),
          result (LoadModule E c h) = false ->
          existsb is_error_sink (events (LoadModule E c h)) = true).
Proof.
  cbv zeta. split; [reflexivity|]. split; [reflexivity|].
  split; [reflexivity|].
  intros Hall.
  specialize (Hall Sample.no_library Sample.live [] eq_refl).
  discriminate Hall.
Qed.

Lemma failed_surface_releases_new_shim_witness :
  shim_answer Sample.no_surface Sample.live [] <> nullptr
  /\ surface_answer Sample.no_surface 0 0 Sample.live [] = EGL_NO_SURFACE
  /\ events (CreatePlatformSurface Sample.no_surface 0 0 Sample.error
               Sample.live [])
     = [Ev_wl_egl_window_destroy 0x7200 0x9000;
        Ev_wl_egl_window_create 0x7100 0xA000 640 448 0x9000;
        Ev_eglCreatePlatformWindowSurface 0 0 0x9000 0 0;
        Ev_eglGetError 0x3003;
        Ev_Error_SetString 0xEE
          "eglCreatePlatformWindowSurface() for Wayland failed: 12291 (0x3003)";
        Ev_wl_egl_window_destroy 0x7200 0x9000]
  /\ m_wl_window (object (CreatePlatformSurface Sample.no_surface 0 0
                            Sample.error Sample.live [])) = nullptr.
Proof.
  assert (shim_answer Sample.no_surface Sample.live [] <> nullptr) as Hshim
    by (vm_compute; discriminate).
  assert (surface_answer Sample.no_surface 0 0 Sample.live [] = EGL_NO_SURFACE)
    as Hsurface by reflexivity.
  destruct (failed_surface_releases_new_shim Sample.no_surface 0 0 Sample.error
              Sample.live [] Hshim Hsurface) as (_ & Hnull & _ & Hev & _).
  split; [exact Hshim|]. split; [exact Hsurface|].
  split; [exact Hev | exact Hnull].
Defined.

Lemma GetPlatformDisplay_failure_paths_witness :
  (extension_advertised Sample.no_extension [] = false
   /\ existsb is_display_acquire
        (events (GetPlatformDisplay Sample.no_extension Sample.base_class 0
                   Sample.error Sample.live [])) = false)
  /\ (extension_advertised Sample.no_display [] = true
      /\ display_answer Sample.no_display 0 Sample.live [] = EGL_NO_DISPLAY
      /\ exists dec hex,
           events (GetPlatformDisplay Sample.no_display Sample.base_class 0
                     Sample.error Sample.live [])
           = [Ev_CheckExtension "EGL_KHR_platform_wayland"
                "EGL_EXT_platform_wayland" true;
              Ev_eglGetPlatformDisplay 0x31D8 0xC000 0 0;
              Ev_eglGetError 0x300C;
              Ev_Error_SetString 0xEE
                ("eglGetPlatformDisplay() for Wayland failed: "
                 ++ dec ++ " (0x" ++ hex ++ ")")%string]
           /\ dec = "12300"%string
           /\ hex = "300C"%string
           /\ read_dec dec = Some 0x300C
           /\ read_HEX hex = Some 0x300C).
Proof.
  split.
  - assert (extension_advertised Sample.no_extension [] = false) as Hext
      by reflexivity.
    split; [exact Hext|].
    exact (proj1 (proj2 (proj1 (GetPlatformDisplay_failure_paths
                                  Sample.no_extension Sample.base_class 0
                                  Sample.error Sample.live []) Hext))).
  - assert (extension_advertised Sample.no_display [] = true) as Hext
      by reflexivity.
    assert (display_answer Sample.no_display 0 Sample.live [] = EGL_NO_DISPLAY)
      as Hdpy by reflexivity.
    split; [exact Hext|]. split; [exact Hdpy|].
    destruct (proj2 (proj2 (GetPlatformDisplay_failure_paths
                              Sample.no_display Sample.base_class 0
                              Sample.error Sample.live []) Hext Hdpy))
      as (dec & hex & Hev & Hdec & Hhex & Hrd & Hrh).
    exists dec, hex.
    split; [exact Hev|]. split; [exact Hdec|]. split; [exact Hhex|].
    split; [exact Hrd | exact Hrh].
Defined.

Lemma Create_fails_when_library_fails_witness :
  ~ (library_opens Sample.no_resize_symbol []
     /\ symbols_resolve Sample.no_resize_symbol [])
  /\ fst (Create Sample.no_resize_symbol Sample.base_class Sample.window
            Sample.unset [Sample.v33] Sample.error []) = None
  /\ forallb (fun e => negb (is_shim_create e) && negb (is_surface_create e))
       (snd (Create Sample.no_resize_symbol Sample.base_class Sample.window
               Sample.unset [Sample.v33] Sample.error [])) = true.
Proof.
  assert (~ (library_opens Sample.no_resize_symbol []
             /\ symbols_resolve Sample.no_resize_symbol [])) as Hfail.
  { intros [_ Hsym]. vm_compute in Hsym.
    destruct Hsym as (_ & _ & Hresize). apply Hresize. reflexivity. }
  destruct (Create_fails_when_library_fails Sample.base_class Sample.window
              Sample.unset [Sample.v33] Sample.error Hfail)
    as (Hnone & _ & Hquiet).
  split; [exact Hfail|]. split; [exact Hnone | exact Hquiet].
Defined.

Lemma LoadModule_succeeds_iff_library_and_symbols_witness :
  library_opens Sample.no_resize_symbol []
  /\ ~ symbols_resolve Sample.no_resize_symbol []
  /\ result (LoadModule Sample.no_resize_symbol
               (GLContextEGLWayland_new Sample.base_class Sample.window
                  Sample.unset) []) = false
  /\ (forall h',
        events (destructor_body
                  (object (LoadModule Sample.no_resize_symbol
                             (GLContextEGLWayland_new Sample.base_class
                                Sample.window Sample.unset) [])) h')
        = [Ev_dlclose 0x7000])
  /\ fst (Create Sample.no_resize_symbol Sample.base_class Sample.window
            Sample.unset [Sample.v33] Sample.error []) = None.
Proof.
  assert (library_opens Sample.no_resize_symbol []) as Hopen
    by (vm_compute; discriminate).
  assert (~ symbols_resolve Sample.no_resize_symbol []) as Hsym.
  { intros Hsym. vm_compute in Hsym.
    destruct Hsym as (_ & _ & Hresize). apply Hresize. reflexivity. }
  destruct (LoadModule_succeeds_iff_library_and_symbols
              Sample.no_resize_symbol Sample.base_class
              (GLContextEGLWayland_new Sample.base_class Sample.window
                 Sample.unset) []) as (_ & Hmissing & Hunusable).
  destruct (Hmissing Hopen Hsym) as (Hfalse & _ & _ & Hclose).
  destruct (Hunusable Hfalse) as (HCreate & _).
  split; [exact Hopen|]. split; [exact Hsym|]. split; [exact Hfalse|].
  split; [exact Hclose|].
  exact (HCreate Sample.window Sample.unset [Sample.v33] Sample.error).
Defined.

Lemma CreateSharedContext_shares_display_and_owns_library_witness :
  result (LoadModule Sample.good
            (shared_context Sample.base_class Sample.created_object
               Sample.window Sample.unset) []) = true
  /\ exists rest,
       snd (CreateSharedContext Sample.good Sample.base_class
              Sample.created_object Sample.window Sample.unset [])
       = [Ev_dlopen "libwayland-egl.so.1" 258 0x7000;
          Ev_dlsym 0x7000 "wl_egl_window_create" 0x7100;
          Ev_dlsym 0x7000 "wl_egl_window_destroy" 0x7200;
          Ev_dlsym 0x7000 "wl_egl_window_resize" 0x7300;
          Ev_Base (BC_CreateContextAndSurface
                     {| major_version := 0; minor_version := 0 |} 0 false);
          Ev_wl_egl_window_create 0x7100 0xA000 640 448 0x9000;
          Ev_eglCreatePlatformWindowSurface 0xD15 0 0x9000 0 0x5F00]
         ++ rest.
Proof.
  assert (result (LoadModule Sample.good
                    (shared_context Sample.base_class Sample.created_object
                       Sample.window Sample.unset) []) = true) as Hloaded
    by reflexivity.
  split; [exact Hloaded|].
  destruct (CreateSharedContext_shares_display_and_owns_library Sample.good
              Sample.base_class Sample.created_object Sample.window
              Sample.unset []) as (_ & _ & _ & _ & _ & _ & Hdelegates).
  destruct (Hdelegates Hloaded) as ((rest & Hev) & _).
  exists rest. exact Hev.
Defined.

Lemma failures_are_reported_where_they_happen_witness :
  result (LoadModule Sample.no_library Sample.live []) = false
  /\ existsb is_error_sink (events (LoadModule Sample.no_library Sample.live []))
     = false
  /\ result (CreatePlatformSurface Sample.no_shim 0 0 Sample.error
               Sample.live []) = EGL_NO_SURFACE
  /\ exists pre msg post,
       events (CreatePlatformSurface Sample.no_shim 0 0 Sample.error
                 Sample.live [])
       = pre ++ Ev_Error_SetString Sample.error msg :: post.
Proof.
  assert (result (LoadModule Sample.no_library Sample.live []) = false)
    as Hload by reflexivity.
  assert (result (CreatePlatformSurface Sample.no_shim 0 0 Sample.error
                    Sample.live []) = EGL_NO_SURFACE) as Hsurface
    by reflexivity.
  destruct (failures_are_reported_where_they_happen Sample.no_shim
              Sample.base_class) as (_ & _ & Hreport).
  destruct (failures_are_reported_where_they_happen Sample.no_library
              Sample.base_class) as (Hlog & _ & _).
  destruct (Hlog Sample.live [] Hload) as (Hsink & _).
  destruct (Hreport 0 0 Sample.error Sample.live [] Hsurface)
    as (pre & msg & post & Hev & _).
  split; [exact Hload|]. split; [exact Hsink|]. split; [exact Hsurface|].
  exists pre, msg, post. exact Hev.
Defined.

Lemma shim_window_implies_library_and_functions_witness :
  lifecycle Sample.good Sample.base_class Ready Sample.created_object
  /\ m_wl_window Sample.created_object <> nullptr
  /\ m_wl_module Sample.created_object <> nullptr
  /\ m_wl_egl_window_destroy Sample.created_object <> nullptr
  /\ forallb (fun e => negb (calls_null_fn e))
       (events (destructor_body Sample.created_object [])) = true.
Proof.
  assert (lifecycle Sample.good Sample.base_class Ready Sample.created_object)
    as Hlife.
  { unfold Sample.created_object. apply life_base.
    exact (life_LoadModule (E := Sample.good) []
             (life_new Sample.good Sample.base_class Sample.window
                Sample.unset)). }
  assert (m_wl_window Sample.created_object <> nullptr) as Hwindow
    by (vm_compute; discriminate).
  destruct (shim_window_implies_library_and_functions Hlife)
    as (Hinv & Hdestructor & _).
  destruct (Hinv Hwindow) as (Hmodule & _ & Hdestroy & _).
  split; [exact Hlife|]. split; [exact Hwindow|]. split; [exact Hmodule|].
  split; [exact Hdestroy | exact (Hdestructor [])].
Defined.

(** ** Further properties: what the base class and the host can do to an object *)

Section Orderly.

Variable E : Env.
Variable B : BaseClass.

Lemma forallb_weaken (P Q : Event -> bool) (t : Trace) :
  (forall e, P e = true -> Q e = true) ->
  forallb P t = true -> forallb Q t = true.
Proof.
  intros HPQ HP. rewrite forallb_forall in *. auto.
Qed.

Lemma CreatePlatformSurface_hook_events
    (config attribs error : ptr) (c : GLContextEGLWayland) (h : Trace) :
  forallb is_hook_event
          (events (CreatePlatformSurface E config attribs error c h)) = true.
Proof.
  rewrite CreatePlatformSurface_run. unfold release_held.
  destruct (is_set (m_wl_window c)), (is_set (shim_answer E c h));
    try destruct (surface_answer E config attribs c h =? EGL_NO_SURFACE);
    reflexivity.
Qed.

Lemma GetPlatformDisplay_hook_events
    (attribs error : ptr) (c : GLContextEGLWayland) (h : Trace) :
  forallb is_hook_event (events (GetPlatformDisplay E B attribs error c h))
  = true.
Proof.
  rewrite GetPlatformDisplay_run.
  destruct (extension_advertised E h);
    try destruct (display_answer E attribs c h =? EGL_NO_DISPLAY);
    reflexivity.
Qed.

Lemma run_base_hook_events (s : BaseScript) :
  forall (c : GLContextEGLWayland) (h : Trace),
    forallb is_hook_event (events (run_base E B s c h)) = true.
Proof.
  induction s as [b | attribs error k IH | config attribs error k IH
                 | f k IH | k IH | tag k IH]; intros c h; cbn [run_base].
  - reflexivity.
  - destruct (bind_run (GetPlatformDisplay E B attribs error)
                (fun dpy => run_base E B (k dpy)) c h) as (_ & _ & ->).
    now rewrite forallb_app, GetPlatformDisplay_hook_events, IH.
  - destruct (bind_run (CreatePlatformSurface E config attribs error)
                (fun s => run_base E B (k s)) c h) as (_ & _ & ->).
    now rewrite forallb_app, CreatePlatformSurface_hook_events, IH.
  - destruct (bind_run (assign (fun c => set_base (f (base c)) c))
                (fun _ => run_base E B k) c h) as (_ & _ & ->).
    cbn [events assign snd app]. apply IH.
  - destruct (bind_run this (fun c => run_base E B (k (base c))) c h)
      as (_ & _ & ->).
    cbn [events this snd app]. apply IH.
  - destruct (bind_run (extern (fun h => env_base_effect E h tag)
                               (Ev_BaseEffect tag))
                (fun r => run_base E B (k r)) c h) as (_ & _ & ->).
    cbn [events extern snd app forallb is_hook_event andb]. apply IH.
Qed.

Lemma is_set_false_null (p : ptr) : is_set p = false -> p = 0.
Proof.
  unfold is_set. destruct (Z.eqb_spec p 0); cbn; congruence.
Qed.

Lemma orderly_refl (c : GLContextEGLWayland) : orderly c [] c.
Proof. constructor; cbn; auto. Qed.

Lemma orderly_loaded (c c' : GLContextEGLWayland) (evs : Trace) :
  orderly c evs c' -> loaded c -> loaded c'.
Proof.
  intros [Hm Hc Hd Hr _ _ _ _ _] (H1 & H2 & H3 & H4).
  unfold loaded. rewrite Hm, Hc, Hd, Hr. auto.
Qed.

Lemma orderly_app (c c1 c2 : GLContextEGLWayland) (t1 t2 : Trace) :
  orderly c t1 c1 -> orderly c1 t2 c2 -> orderly c (t1 ++ t2) c2.
Proof.
  intros O1 O2.
  pose proof (orderly_loaded O1) as Hl.
  destruct O1 as [Hm1 Hc1 Hd1 Hr1 Hl1 Hn1 Hf1 Ha1 Hh1].
  destruct O2 as [Hm2 Hc2 Hd2 Hr2 Hl2 Hn2 Hf2 Ha2 Hh2].
  constructor; try congruence.
  - now rewrite forallb_app, Hl1, Hl2.
  - now rewrite forallb_app, Hn1, Hn2.
  - intros Hloaded. rewrite forallb_app, Hf1, Hf2; auto.
  - rewrite alive_history_app, Hh1. apply Forall_app. now split.
  - now rewrite alive_after_app, Hh1.
Qed.

Lemma run_base_orderly (s : BaseScript) (c : GLContextEGLWayland) (h : Trace) :
  orderly c (events (run_base E B s c h)) (object (run_base E B s c h)).
Proof.
  pose proof (run_base_guarded E B s c h) as G.
  pose proof (run_base_hook_events s c h) as Hk.
  destruct G as [Hm Hc Hd Hr Hf Hq Ha Hh].
  constructor; auto.
  - revert Hk. apply forallb_weaken. intros e. now destruct e.
  - revert Hq. apply forallb_weaken. intros e.
    destruct (is_shim_resize e), (is_dlclose e), (releases_null e); auto.
  - intros (_ & H2 & H3 & _). auto.
Qed.

Lemma ResizeSurface_orderly (w h : Z) (c : GLContextEGLWayland) (hist : Trace) :
  orderly c (events (ResizeSurface E B w h c hist))
            (object (ResizeSurface E B w h c hist)).
Proof.
  rewrite ResizeSurface_run. cbn [events object fst snd].
  match goal with
  | |- orderly c (?pre ++ ?e :: events ?r) (object ?r) =>
      change (pre ++ e :: events r) with (pre ++ [e] ++ events r);
      rewrite app_assoc
  end.
  eapply orderly_app; [|apply run_base_orderly].
  unfold resize_held.
  destruct (is_set (m_wl_window c)) eqn:Hheld.
  - constructor; try reflexivity.
    + intros (_ & _ & _ & Hr). apply not_null_eqb in Hr.
      cbn. now rewrite Hr.
    + unfold held. rewrite Hheld. repeat constructor.
  - constructor; try reflexivity.
    unfold held. rewrite Hheld. repeat constructor.
Qed.

Lemma run_ops_orderly (ops : list HostOp) :
  forall (c : GLContextEGLWayland) (h : Trace),
    orderly c (events (run_ops E B ops c h)) (object (run_ops E B ops c h)).
Proof.
  induction ops as [|op ops IH]; intros c h; cbn [run_ops].
  - apply orderly_refl.
  - destruct (bind_run (run_op E B op) (fun _ => run_ops E B ops) c h)
      as (_ & -> & ->).
    eapply orderly_app; [|apply IH].
    destruct op as [w hh | s]; cbn [run_op].
    + apply ResizeSurface_orderly.
    + destruct (bind_run (run_base E B s) (fun _ => ret tt) c h)
        as (_ & -> & ->).
      cbn [ret events object fst snd]. rewrite app_nil_r.
      apply run_base_orderly.
Qed.

End Orderly.

(** ** Further properties: accounting for shim windows and libraries *)

Section Accounting.

Variable E : Env.
Variable B : BaseClass.

Lemma libraries_after_app (l : list ptr) (t1 t2 : Trace) :
  libraries_after l (t1 ++ t2) = libraries_after (libraries_after l t1) t2.
Proof. unfold libraries_after. apply fold_left_app. Qed.

Lemma libraries_after_quiet (l : list ptr) (t : Trace) :
  forallb (fun e => negb (is_loader_call e)) t = true ->
  libraries_after l t = l.
Proof.
  revert l. induction t as [|e t IH]; intros l; cbn; [reflexivity|].
  intros Hq. apply andb_true_iff in Hq. destruct Hq as [He Ht].
  change (fold_left library_step t (library_step l e))
    with (libraries_after (library_step l e) t).
  rewrite IH by assumption. now destruct e.
Qed.

Lemma library_closed_last_open (t : Trace) :
  forallb (fun e => negb (is_dlclose e)) t = true ->
  library_closed_last t = true.
Proof.
  induction t as [|e t IH]; cbn; [reflexivity|].
  intros Hq. apply andb_true_iff in Hq. destruct Hq as [He Ht].
  rewrite IH by assumption. now destruct (is_dlclose e).
Qed.

Lemma library_closed_last_app (t1 t2 : Trace) :
  forallb (fun e => negb (is_dlclose e)) t1 = true ->
  library_closed_last (t1 ++ t2) = library_closed_last t2.
Proof.
  induction t1 as [|e t1 IH]; cbn; [reflexivity|].
  intros Hq. apply andb_true_iff in Hq. destruct Hq as [He Ht].
  rewrite IH by assumption. now destruct (is_dlclose e).
Qed.

Lemma accounted_app (a l a1 l1 a2 l2 : list ptr) (t1 t2 : Trace) :
  accounted a l t1 a1 l1 -> accounted a1 l1 t2 a2 l2 ->
  accounted a l (t1 ++ t2) a2 l2.
Proof.
  intros [Ha1 Hf1 Hl1 Hc1 Hr1 Ho1] [Ha2 Hf2 Hl2 Hc2 Hr2 Ho2].
  constructor.
  - rewrite alive_history_app, Hf1. apply Forall_app. now split.
  - now rewrite alive_after_app, Hf1.
  - now rewrite libraries_after_app, Hl1.
  - now rewrite forallb_app, Hc1, Hc2.
  - now rewrite forallb_app, Hr1, Hr2.
  - now rewrite forallb_app, Ho1, Ho2.
Qed.

(** An event that is neither a shim call nor a loader call changes nothing. *)
Lemma accounted_inert (a l : list ptr) (e : Event) :
  (List.length a <= 1)%nat ->
  is_shim_call e = false -> is_loader_call e = false ->
  accounted a l [e] a l.
Proof.
  intros Ha Hs Hl.
  constructor; cbn; destruct e; try discriminate; auto.
Qed.

Lemma held_short (c : GLContextEGLWayland) : (List.length (held c) <= 1)%nat.
Proof. unfold held. destruct (is_set (m_wl_window c)); cbn; auto. Qed.

Lemma orderly_accounted (c c' : GLContextEGLWayland) (evs : Trace)
    (l : list ptr) :
  orderly c evs c' -> loaded c ->
  accounted (held c) l evs (held c') l.
Proof.
  intros [_ _ _ _ Hl Hn Hf Ha Hh] Hloaded.
  constructor; auto.
  - now apply libraries_after_quiet.
  - revert Hl. apply forallb_weaken. intros e. now destruct e.
Qed.

(** [LoadModule] leaves the shim windows alone and ends with the library it
    opened, if any, as the one library open. *)
Lemma LoadModule_accounted (c : GLContextEGLWayland) (h : Trace)
    (a : list ptr) :
  (List.length a <= 1)%nat ->
  accounted a [] (events (LoadModule E c h)) a
            (library_held (object (LoadModule E c h))).
Proof.
  intros Ha.
  pose proof (LoadModule_run E c h) as Hrun. cbv zeta in Hrun.
  destruct (loader_answers E h) as [[[m f1] f2] f3]. rewrite Hrun.
  unfold library_held.
  destruct (is_set m) eqn:Hm;
    [destruct (is_set f1 && is_set f2 && is_set f3)|];
    cbn [events object fst snd loader_requests with_answers app
         set_m_wl_egl_window_resize set_m_wl_egl_window_destroy
         set_m_wl_egl_window_create set_m_wl_module m_wl_module];
    rewrite Hm; constructor; cbn; rewrite ?Hm; auto;
    repeat (apply Forall_cons; [exact Ha|]); apply Forall_nil.
Qed.

(** Destroying an object that holds no shim window, or whose table is
    resolved, releases what it holds: first the shim window, then the
    library. *)
Lemma destroy_releases (c : GLContextEGLWayland) (h : Trace) :
  m_wl_window c = nullptr \/ loaded c ->
  Forall (fun x => (List.length x <= 1)%nat)
         (alive_history (held c) (events (destroy c h)))
  /\ alive_after (held c) (events (destroy c h)) = []
  /\ libraries_after (library_held c) (events (destroy c h)) = []
  /\ forallb (fun e => negb (calls_null_fn e)) (events (destroy c h)) = true
  /\ forallb (fun e => negb (releases_null e)) (events (destroy c h)) = true
  /\ library_closed_last (events (destroy c h)) = true.
Proof.
  intros Hinv. rewrite destroy_events.
  unfold release_held, held, library_held.
  destruct (is_set (m_wl_window c)) eqn:Hw.
  - destruct Hinv as [Hnull | (_ & _ & Hd & _)].
    { rewrite Hnull in Hw. discriminate. }
    apply not_null_eqb in Hd. pose proof (is_set_eqb _ Hw) as Hw0.
    destruct (is_set (m_wl_module c)) eqn:Hm;
      try pose proof (is_set_eqb _ Hm) as Hm0;
      cbn; rewrite ?Hd, ?Hw0, ?Hm0, ?Z.eqb_refl; cbn;
      repeat split; repeat constructor.
  - destruct (is_set (m_wl_module c)) eqn:Hm;
      try pose proof (is_set_eqb _ Hm) as Hm0;
      cbn; rewrite ?Hm0, ?Z.eqb_refl; cbn;
      repeat split; repeat constructor.
Qed.

(** A trace accounted for up to an object, followed by the destruction of
    that object, has released everything. *)
Lemma accounted_then_destroyed (pre : Trace) (c : GLContextEGLWayland)
    (h : Trace) :
  accounted [] [] pre (held c) (library_held c) ->
  m_wl_window c = nullptr \/ loaded c ->
  released_everything (pre ++ events (destroy c h)).
Proof.
  intros [Ha Hf Hl Hc Hr Ho] Hinv.
  destruct (destroy_releases h Hinv) as (Da & Df & Dl & Dc & Dr & Do).
  unfold released_everything.
  rewrite alive_history_app, alive_after_app, libraries_after_app, !forallb_app,
    library_closed_last_app, Hf, Hl, Hc, Hr by assumption.
  repeat split; auto. apply Forall_app. now split.
Qed.

End Accounting.

(** ** Further properties: the factories and whole lifetimes *)

Section Lifetimes.

Variable E : Env.
Variable B : BaseClass.

(** The base class entered on an object whose table is resolved. *)
Lemma base_call_accounted (call : BaseCall) (s : BaseScript)
    (c : GLContextEGLWayland) (h : Trace) (l : list ptr) :
  loaded c ->
  accounted (held c) l (events (base_call E B call s c h))
            (held (object (base_call E B call s c h))) l
  /\ loaded (object (base_call E B call s c h)).
Proof.
  intros Hl. rewrite base_call_run. cbn [events object fst snd].
  pose proof (run_base_orderly E B s c (Ev_Base call :: h)) as O.
  split; [|exact (orderly_loaded O Hl)].
  change (Ev_Base call :: ?t) with ([Ev_Base call] ++ t).
  eapply accounted_app; [|exact (orderly_accounted l O Hl)].
  apply accounted_inert; [apply held_short | reflexivity | reflexivity].
Qed.

(** The pattern both factories follow on their new object: [LoadModule],
    then a base class entry point, then either the events [tail] of the
    successful return or the destruction of the object. *)
Lemma factory_accounting (call : BaseCall) (s : BaseScript) (tail : Trace)
    (c : GLContextEGLWayland) (h : Trace) :
  m_wl_window c = nullptr ->
  (forall a l, (List.length a <= 1)%nat -> accounted a l tail a l) ->
  let r1 := LoadModule E c h in
  let h1 := rev_append (events r1) h in
  let r2 := base_call E B call s (object r1) h1 in
  let h2 := rev_append (events r2) h1 in
  (result r1 = false ->
   released_everything (events r1 ++ events (destroy (object r1) h1)))
  /\ (result r1 = true -> result r2 = false ->
      released_everything
        (events r1 ++ events r2 ++ events (destroy (object r2) h2)))
  /\ (result r1 = true ->
      accounted [] [] (events r1 ++ events r2 ++ tail)
                (held (object r2)) (library_held (object r2))
      /\ loaded (object r2)).
Proof.
  intros Hnull Htail. cbv zeta.
  destruct (LoadModule_object E c h) as (Hw & _ & _ & Hloaded).
  assert (held (object (LoadModule E c h)) = []) as Hheld.
  { unfold held. now rewrite Hw, Hnull. }
  assert (accounted [] [] (events (LoadModule E c h))
            (held (object (LoadModule E c h)))
            (library_held (object (LoadModule E c h)))) as A1.
  { rewrite Hheld. exact (@LoadModule_accounted E c h [] (Nat.le_0_l 1)). }
  assert (result (LoadModule E c h) = true ->
          accounted [] []
            (events (LoadModule E c h)
             ++ events (base_call E B call s (object (LoadModule E c h))
                          (rev_append (events (LoadModule E c h)) h)))
            (held (object (base_call E B call s (object (LoadModule E c h))
                             (rev_append (events (LoadModule E c h)) h))))
            (library_held (object (base_call E B call s
                                     (object (LoadModule E c h))
                                     (rev_append (events (LoadModule E c h)) h))))
          /\ loaded (object (base_call E B call s (object (LoadModule E c h))
                               (rev_append (events (LoadModule E c h)) h))))
    as Hboth.
  { intros Hok. specialize (Hloaded Hok).
    destruct (base_call_accounted call s
                (rev_append (events (LoadModule E c h)) h)
                (library_held (object (LoadModule E c h))) Hloaded)
      as (A2 & Hl2).
    split; [|exact Hl2].
    assert (library_held (object (base_call E B call s
                                    (object (LoadModule E c h))
                                    (rev_append (events (LoadModule E c h)) h)))
            = library_held (object (LoadModule E c h))) as ->.
    { rewrite base_call_run. cbn [object fst snd]. unfold library_held.
      now rewrite (o_module (run_base_orderly E B s _ _)). }
    exact (accounted_app A1 A2). }
  split; [|split].
  - intros _. apply accounted_then_destroyed; [exact A1 | left; congruence].
  - intros Hok _. destruct (Hboth Hok) as (A & Hl).
    rewrite app_assoc. apply accounted_then_destroyed; [exact A | now right].
  - intros Hok. destruct (Hboth Hok) as (A & Hl).
    split; [|exact Hl].
    rewrite app_assoc. eapply accounted_app; [exact A|].
    apply Htail. apply held_short.
Qed.

Lemma accounted_nil (a l : list ptr) : accounted a l [] a l.
Proof. constructor; cbn; auto. Qed.

Lemma Create_accounting
    (wi : WindowInfo) (fns : ShimFunctionTable) (versions : list Version)
    (error : ptr) (h : Trace) :
  match Create E B wi fns versions error h with
  | (Some c, evs) =>
      accounted [] [] evs (held c) (library_held c) /\ loaded c
  | (None, evs) => released_everything evs
  end.
Proof.
  unfold Create.
  set (c := GLContextEGLWayland_new B wi fns).
  pose proof (Create_on_context_run E B versions error c h) as Hrun.
  cbv zeta in Hrun. rewrite Hrun. clear Hrun.
  destruct (@factory_accounting (BC_Initialize versions error)
              (base_Initialize B versions error)
              [Ev_Console_WriteLn "EGL Platform: Wayland"] c h eq_refl)
    as (Hfail1 & Hfail2 & Hok).
  { intros a l Ha. now apply accounted_inert. }
  fold (Initialize E B versions error) in Hfail2, Hok.
  destruct (result (LoadModule E c h)); [|now apply Hfail1].
  destruct (result (Initialize E B versions error _ _));
    [now apply Hok | now apply Hfail2].
Qed.

Lemma CreateSharedContext_accounting
    (self : GLContextEGLWayland) (wi : WindowInfo) (fns : ShimFunctionTable)
    (h : Trace) :
  match CreateSharedContext E B self wi fns h with
  | (Some c, evs) =>
      accounted [] [] evs (held c) (library_held c) /\ loaded c
  | (None, evs) => released_everything evs
  end.
Proof.
  unfold CreateSharedContext.
  set (c := shared_context B self wi fns).
  pose proof (CreateSharedContext_on_context_run E B (m_version (base self))
                (m_context (base self)) c h) as Hrun.
  cbv zeta in Hrun. rewrite Hrun. clear Hrun.
  destruct (@factory_accounting
              (BC_CreateContextAndSurface (m_version (base self))
                 (m_context (base self)) false)
              (base_CreateContextAndSurface B (m_version (base self))
                 (m_context (base self)) false)
              [] c h eq_refl)
    as (Hfail1 & Hfail2 & Hok).
  { intros a l Ha. apply accounted_nil. }
  fold (CreateContextAndSurface E B (m_version (base self))
          (m_context (base self)) false) in Hfail2, Hok.
  destruct (result (LoadModule E c h)); [|now apply Hfail1].
  destruct (result (CreateContextAndSurface E B _ _ _ _ _)).
  - specialize (Hok eq_refl). rewrite !app_nil_r in Hok. exact Hok.
  - now apply Hfail2.
Qed.

(** X1.  [Create] accounts for what it acquires.  When it returns
    [nullptr], every shim window made during the call has been destroyed and
    the library, if it opened, has been closed, after the last shim call.
    When it returns an object, the shim windows alive are exactly the one the
    object holds, the one library open is the one the object holds, nothing
    was closed, and the object's table is resolved.  Either way at most one
    shim window was alive at any time and no call went through a null
    function pointer. *)
Theorem Create_accounts_for_resources
    (wi : WindowInfo) (fns : ShimFunctionTable) (versions : list Version)
    (error : ptr) (h : Trace) :
  match Create E B wi fns versions error h with
  | (Some c, evs) =>
      accounted [] [] evs (held c) (library_held c) /\ loaded c
  | (None, evs) => released_everything evs
  end.
Proof. apply Create_accounting. Qed.

(** X2.  [CreateSharedContext] accounts for what it acquires in the same
    way, whatever the invoking object is. *)
Theorem CreateSharedContext_accounts_for_resources
    (self : GLContextEGLWayland) (wi : WindowInfo) (fns : ShimFunctionTable)
    (h : Trace) :
  match CreateSharedContext E B self wi fns h with
  | (Some c, evs) =>
      accounted [] [] evs (held c) (library_held c) /\ loaded c
  | (None, evs) => released_everything evs
  end.
Proof. apply CreateSharedContext_accounting. Qed.

(** The operations of the host and the base class on an object whose table
    is resolved, followed by its destruction, release what the object
    holds. *)
Lemma ops_then_destroy (ops : list HostOp) (c : GLContextEGLWayland)
    (h : Trace) (pre : Trace) :
  accounted [] [] pre (held c) (library_held c) -> loaded c ->
  released_everything
    (pre ++ events ((run_ops E B ops ;; destroy) c h)).
Proof.
  intros A Hl.
  destruct (bind_run (run_ops E B ops) (fun _ => destroy) c h)
    as (_ & _ & ->).
  pose proof (run_ops_orderly E B ops c h) as O.
  rewrite app_assoc. apply accounted_then_destroyed.
  - assert (library_held (object (run_ops E B ops c h)) = library_held c)
      as ->.
    { unfold library_held. now rewrite (o_module O). }
    exact (accounted_app A (orderly_accounted (library_held c) O Hl)).
  - right. exact (orderly_loaded O Hl).
Qed.

(** X3.  Over a whole life, from [Create] through any resizes and any runs
    of the base class to the destruction of the object, at most one shim
    window is alive at any time, every shim window made is destroyed, the
    library is closed if it opened and only after the last shim call, no
    call goes through a null function pointer and no null handle is
    released; the same when [Create] fails and hands out nothing. *)
Theorem lifetime_releases_everything
    (wi : WindowInfo) (fns : ShimFunctionTable) (versions : list Version)
    (error : ptr) (ops : list HostOp) (h : Trace) :
  released_everything (lifetime E B wi fns versions error ops h).
Proof.
  unfold lifetime.
  pose proof (Create_accounting wi fns versions error h) as HC.
  destruct (Create E B wi fns versions error h) as [[c|] e1]; [|exact HC].
  destruct HC as (A & Hl). now apply ops_then_destroy.
Qed.

(** X4.  The same over the life of an object made by
    [CreateSharedContext]. *)
Theorem shared_lifetime_releases_everything
    (self : GLContextEGLWayland) (wi : WindowInfo) (fns : ShimFunctionTable)
    (ops : list HostOp) (h : Trace) :
  released_everything (shared_lifetime E B self wi fns ops h).
Proof.
  unfold shared_lifetime.
  pose proof (CreateSharedContext_accounting self wi fns h) as HC.
  destruct (CreateSharedContext E B self wi fns h) as [[c|] e1]; [|exact HC].
  destruct HC as (A & Hl). now apply ops_then_destroy.
Qed.

End Lifetimes.

(** ** Further properties: the hooks, the loader and the factory *)

Section HooksAndLoader.

Variable E : Env.
Variable B : BaseClass.

(** X5.  When the shim library makes no window, [CreatePlatformSurface]
    reports ["wl_egl_window_create() failed"], returns [EGL_NO_SURFACE] and
    asks the platform layer for nothing: neither a window surface nor an
    error code.  The shim window the object held before is destroyed all the
    same, and the object holds none afterwards. *)
Theorem failed_shim_creation_skips_platform_layer
    (config attribs error : ptr) (c : GLContextEGLWayland) (h : Trace) :
  shim_answer E c h = nullptr ->
  let r := CreatePlatformSurface E config attribs error c h in
  result r = EGL_NO_SURFACE
  /\ m_wl_window (object r) = nullptr
  /\ events r =
       release_held c
       ++ [shim_event E c h;
           Ev_Error_SetString error "wl_egl_window_create() failed"]
  /\ existsb is_surface_create (events r) = false
  /\ existsb is_eglGetError (events r) = false
  /\ alive_after (held c) (events r) = [].
Proof.
  intros Hw r. subst r.
  pose proof (g_held (CreatePlatformSurface_guarded E config attribs error c h))
    as Hheld.
  rewrite Hheld. clear Hheld.
  rewrite CreatePlatformSurface_run.
  unfold shim_event. rewrite Hw.
  cbn [is_set nullptr Z.eqb negb result object events fst snd
       set_m_wl_window m_wl_window held].
  unfold release_held.
  destruct (is_set (m_wl_window c)); repeat split.
Qed.

(** X6.  After [CreatePlatformSurface] the object holds a shim window exactly
    when the call returned a surface; the window it then holds is the one
    the call created, and the surface was made for that window on the
    object's display. *)
Theorem surface_returned_iff_window_held
    (config attribs error : ptr) (c : GLContextEGLWayland) (h : Trace) :
  let r := CreatePlatformSurface E config attribs error c h in
  (result r <> EGL_NO_SURFACE <-> m_wl_window (object r) <> nullptr)
  /\ (result r <> EGL_NO_SURFACE ->
      m_wl_window (object r) = shim_answer E c h
      /\ In (Ev_eglCreatePlatformWindowSurface (m_display (base c)) config
               (m_wl_window (object r)) attribs (result r)) (events r))
  /\ base (object r) = base c.
Proof.
  cbv zeta. rewrite CreatePlatformSurface_run. unfold surface_event.
  destruct (is_set (shim_answer E c h)) eqn:Hw;
    [destruct (surface_answer E config attribs c h =? EGL_NO_SURFACE) eqn:Hs|];
    cbn [result object events fst snd set_m_wl_window m_wl_window base].
  - apply Z.eqb_eq in Hs. rewrite Hs. unfold EGL_NO_SURFACE, nullptr.
    repeat split; intros; congruence.
  - apply Z.eqb_neq in Hs. apply is_set_true in Hw.
    repeat split; intros; auto.
    apply in_or_app. right. cbn. auto.
  - apply is_set_false_null in Hw. rewrite Hw. unfold EGL_NO_SURFACE, nullptr.
    repeat split; intros; congruence.
Qed.

(** X7.  [CreatePlatformSurface] writes to the error sink exactly when it
    returns [EGL_NO_SURFACE]; it calls the shim create function exactly once
    and [eglCreatePlatformWindowSurface] at most once, and asks for the
    platform layer's error code only after a failed surface call. *)
Theorem CreatePlatformSurface_reports_iff_it_fails
    (config attribs error : ptr) (c : GLContextEGLWayland) (h : Trace) :
  let r := CreatePlatformSurface E config attribs error c h in
  existsb is_error_sink (events r) = (result r =? EGL_NO_SURFACE)
  /\ List.length (filter is_shim_create (events r)) = 1%nat
  /\ (List.length (filter is_surface_create (events r)) <= 1)%nat
  /\ (existsb is_eglGetError (events r) = true ->
      shim_answer E c h <> nullptr
      /\ surface_answer E config attribs c h = EGL_NO_SURFACE).
Proof.
  cbv zeta. rewrite CreatePlatformSurface_run.
  unfold shim_event, surface_event, release_held.
  destruct (is_set (m_wl_window c));
    (destruct (is_set (shim_answer E c h)) eqn:Hw;
     [destruct (surface_answer E config attribs c h =? EGL_NO_SURFACE) eqn:Hs|]);
    cbn [result events fst snd app existsb filter is_error_sink is_shim_create
         is_surface_create is_eglGetError orb List.length];
    rewrite ?Hs; cbn [Z.eqb EGL_NO_SURFACE];
    (split; [reflexivity|]); (split; [reflexivity|]);
    (split; [auto|]); try discriminate; intros _;
    (split; [now apply is_set_true | now apply Z.eqb_eq]).
Qed.

(** X8.  [GetPlatformDisplay] leaves the object as it is and calls neither
    the shim library nor the loader.  It writes to the error sink exactly
    when it returns [EGL_NO_DISPLAY]; when it returns a display it has asked
    for it once, for [EGL_PLATFORM_WAYLAND_KHR], with the window's display
    connection and the attributes it was given. *)
Theorem GetPlatformDisplay_outcome
    (attribs error : ptr) (c : GLContextEGLWayland) (h : Trace) :
  let r := GetPlatformDisplay E B attribs error c h in
  object r = c
  /\ existsb is_error_sink (events r) = (result r =? EGL_NO_DISPLAY)
  /\ forallb (fun e => negb (is_shim_call e) && negb (is_loader_call e))
             (events r) = true
  /\ (result r <> EGL_NO_DISPLAY ->
      events r =
        [Ev_CheckExtension "EGL_KHR_platform_wayland"
           "EGL_EXT_platform_wayland" true;
         Ev_eglGetPlatformDisplay EGL_PLATFORM_WAYLAND_KHR
           (display_connection (m_wi (base c))) attribs (result r)]).
Proof.
  cbv zeta. rewrite GetPlatformDisplay_run.
  unfold check_event, display_event.
  destruct (extension_advertised E h);
    [destruct (display_answer E attribs c h =? EGL_NO_DISPLAY) eqn:Hd|];
    cbn [result object events fst snd];
    rewrite ?Hd; repeat split; try reflexivity; intros Hr.
  - apply Z.eqb_eq in Hd. contradiction.
  - exfalso. now apply Hr.
Qed.

(** X9.  When [dlopen] fails, [LoadModule] asks for no symbol, stores the
    null handle and leaves the three function pointers as they were.  When
    it succeeds, [LoadModule] asks the opened library for all three symbols,
    in the order create, destroy, resize, whether or not an earlier one was
    missing, and stores each answer, null ones included. *)
Theorem LoadModule_requests
    (c : GLContextEGLWayland) (h : Trace) :
  let r := LoadModule E c h in
  (opened_library E h = nullptr ->
   result r = false
   /\ events r =
        [Ev_dlopen "libwayland-egl.so.1" 258 nullptr;
         Ev_Console_Error "Failed to load libwayland-egl.so.1."]
   /\ m_wl_module (object r) = nullptr
   /\ m_wl_egl_window_create (object r) = m_wl_egl_window_create c
   /\ m_wl_egl_window_destroy (object r) = m_wl_egl_window_destroy c
   /\ m_wl_egl_window_resize (object r) = m_wl_egl_window_resize c)
  /\ (opened_library E h <> nullptr ->
      filter is_loader_call (events r)
      = [Ev_dlopen "libwayland-egl.so.1" 258 (m_wl_module (object r));
         Ev_dlsym (m_wl_module (object r)) "wl_egl_window_create"
           (m_wl_egl_window_create (object r));
         Ev_dlsym (m_wl_module (object r)) "wl_egl_window_destroy"
           (m_wl_egl_window_destroy (object r));
         Ev_dlsym (m_wl_module (object r)) "wl_egl_window_resize"
           (m_wl_egl_window_resize (object r))]
      /\ m_wl_module (object r) = opened_library E h).
Proof.
  cbv zeta. pose proof (LoadModule_run E c h) as Hrun. cbv zeta in Hrun.
  unfold opened_library.
  destruct (loader_answers E h) as [[[m f1] f2] f3]. rewrite Hrun.
  split.
  - intros ->. cbn. repeat split.
  - intros Hm. apply is_set_true in Hm. rewrite Hm.
    destruct (is_set f1 && is_set f2 && is_set f3); cbn; split; reflexivity.
Qed.

(** X10.  [LoadModule] never closes a library.  Run on an object that
    already holds a library handle, it overwrites the handle, so that handle
    is still open after the object has been destroyed. *)
Theorem LoadModule_overwrites_held_library
    (c : GLContextEGLWayland) (h h' : Trace) :
  m_wl_module c <> nullptr ->
  let r := LoadModule E c h in
  existsb is_dlclose (events r) = false
  /\ libraries_after (library_held c) (events r ++ events (destroy (object r) h'))
     = [m_wl_module c].
Proof.
  intros Hheld r. subst r.
  pose proof (LoadModule_run E c h) as Hrun. cbv zeta in Hrun.
  destruct (loader_answers E h) as [[[m f1] f2] f3]. rewrite Hrun.
  unfold library_held. apply is_set_true in Hheld. rewrite Hheld.
  destruct (is_set m) eqn:Hm;
    [destruct (is_set f1 && is_set f2 && is_set f3)|];
    cbn [events object fst snd]; rewrite destroy_events;
    unfold release_held;
    cbn [with_answers loader_requests set_m_wl_egl_window_resize
         set_m_wl_egl_window_destroy set_m_wl_egl_window_create
         set_m_wl_module m_wl_module m_wl_window];
    rewrite Hm; (split; [reflexivity|]);
    destruct (is_set (m_wl_window c)); cbn; rewrite ?Hm; cbn;
    rewrite ?Z.eqb_refl; reflexivity.
Qed.

(** X11.  [ResizeSurface] after [CreatePlatformSurface] resizes the shim
    window that call created, through the resize pointer of the object and
    with the two sizes converted to [int], when the call returned a surface,
    and makes no shim call of its own when the call failed. *)
Theorem ResizeSurface_follows_CreatePlatformSurface
    (config attribs error : ptr) (w hh : Z) (c : GLContextEGLWayland)
    (h h' : Trace) :
  let r := CreatePlatformSurface E config attribs error c h in
  exists rest,
    events (ResizeSurface E B w hh (object r) h') =
      (if result r =? EGL_NO_SURFACE then []
       else [Ev_wl_egl_window_resize (m_wl_egl_window_resize c)
               (shim_answer E c h) (int_of_u32 w) (int_of_u32 hh) 0 0])
      ++ Ev_Base (BC_ResizeSurface w hh) :: rest
    /\ forallb (fun e => negb (is_shim_resize e)) rest = true.
Proof.
  cbv zeta. rewrite ResizeSurface_run. cbn [events snd].
  eexists. split.
  - f_equal. unfold resize_held. rewrite CreatePlatformSurface_run.
    destruct (is_set (shim_answer E c h)) eqn:Hw;
      [destruct (surface_answer E config attribs c h =? EGL_NO_SURFACE) eqn:Hs|];
      cbn [result object fst snd set_m_wl_window m_wl_window
           m_wl_egl_window_resize];
      rewrite ?Hs, ?Hw; reflexivity.
  - match goal with
    | |- context [run_base E B ?s ?c ?h] =>
        pose proof (run_base_hook_events E B s c h) as Hk
    end.
    revert Hk. apply forallb_weaken. intros e. now destruct e.
Qed.

(** X12.  Whatever the base class does with the two hooks, in whatever
    order and however often, it never gets the loader called, the shim window
    resized or the informational log written, and the library handle and the
    three function pointers of the object stay as they are. *)
Theorem base_class_cannot_touch_library
    (s : BaseScript) (c : GLContextEGLWayland) (h : Trace) :
  let r := run_base E B s c h in
  forallb (fun e => negb (is_loader_call e) && negb (is_shim_resize e)
                    && negb (is_info_log e)) (events r) = true
  /\ m_wl_module (object r) = m_wl_module c
  /\ m_wl_egl_window_create (object r) = m_wl_egl_window_create c
  /\ m_wl_egl_window_destroy (object r) = m_wl_egl_window_destroy c
  /\ m_wl_egl_window_resize (object r) = m_wl_egl_window_resize c.
Proof.
  cbv zeta. destruct (run_base_guarded E B s c h) as [Hm Hc Hd Hr _ _ _ _].
  split; [|auto].
  pose proof (run_base_hook_events E B s c h) as Hk.
  revert Hk. apply forallb_weaken. intros e. now destruct e.
Qed.

(** X13.  [Create] returns an object exactly when [LoadModule] and
    [Initialize] both succeed.  It then ends with the log line
    ["EGL Platform: Wayland"] and has neither closed a library nor resized a
    shim window.  When it
    returns [nullptr] the log line is not written and the last thing that
    happens is the destruction of the object. *)
Theorem Create_returns_iff_both_steps_succeed
    (wi : WindowInfo) (fns : ShimFunctionTable) (versions : list Version)
    (error : ptr) (h : Trace) :
  let r1 := LoadModule E (GLContextEGLWayland_new B wi fns) h in
  let r2 := Initialize E B versions error (object r1)
              (rev_append (events r1) h) in
  let created := Create E B wi fns versions error h in
  (fst created <> None <-> result r1 = true /\ result r2 = true)
  /\ (fst created <> None ->
      created = (Some (object r2),
                 events r1 ++ events r2
                 ++ [Ev_Console_WriteLn "EGL Platform: Wayland"])
      /\ forallb (fun e => negb (is_dlclose e) && negb (is_shim_resize e))
                 (snd created) = true)
  /\ (fst created = None ->
      existsb is_info_log (snd created) = false
      /\ exists pre, snd created = pre ++ [Ev_Base BC_Destructor]).
Proof.
  cbv zeta. unfold Create.
  set (c := GLContextEGLWayland_new B wi fns).
  pose proof (Create_on_context_run E B versions error c h) as Hrun.
  cbv zeta in Hrun. rewrite Hrun. clear Hrun.
  assert (forallb (fun e => negb (is_info_log e) && negb (is_dlclose e)
                            && negb (is_shim_resize e))
                  (events (LoadModule E c h)) = true) as Hk1.
  { pose proof (LoadModule_run E c h) as Hrun. cbv zeta in Hrun.
    destruct (loader_answers E h) as [[[m f1] f2] f3]. rewrite Hrun.
    destruct (is_set m), (is_set f1), (is_set f2), (is_set f3); reflexivity. }
  assert (forall c1 h1,
             forallb (fun e => negb (is_info_log e) && negb (is_dlclose e)
                               && negb (is_shim_resize e))
                     (events (Initialize E B versions error c1 h1)) = true)
    as Hk2.
  { intros c1 h1. unfold Initialize. rewrite base_call_run. cbn [events snd].
    cbn [forallb is_info_log is_dlclose is_shim_resize negb andb].
    pose proof (run_base_hook_events E B (base_Initialize B versions error) c1
                  (Ev_Base (BC_Initialize versions error) :: h1)) as Hk.
    revert Hk. apply forallb_weaken. intros e. now destruct e. }
  assert (forall c1 h1,
             existsb is_info_log (events (destroy c1 h1)) = false
             /\ exists pre, events (destroy c1 h1) = pre ++ [Ev_Base BC_Destructor])
    as Hd.
  { intros c1 h1. rewrite destroy_events. unfold release_held. split.
    - destruct (is_set (m_wl_window c1)), (is_set (m_wl_module c1));
        reflexivity.
    - eexists. rewrite app_assoc. reflexivity. }
  assert (forall t, forallb (fun e => negb (is_info_log e) && negb (is_dlclose e)
                                      && negb (is_shim_resize e)) t = true ->
                    existsb is_info_log t = false) as Hno.
  { intros t Ht. destruct (existsb is_info_log t) eqn:Hex; [|reflexivity].
    apply existsb_exists in Hex. destruct Hex as (e & He & Hi).
    rewrite forallb_forall in Ht. specialize (Ht e He). rewrite Hi in Ht.
    discriminate. }
  destruct (result (LoadModule E c h)).
  - destruct (result (Initialize E B versions error _ _)) eqn:Hr2;
      cbn [fst snd].
    + split; [split; [auto | discriminate]|].
      split; [|intros; discriminate].
      intros _. split; [reflexivity|].
      assert (forall t,
                 forallb (fun e => negb (is_info_log e) && negb (is_dlclose e)
                                   && negb (is_shim_resize e)) t = true ->
                 forallb (fun e => negb (is_dlclose e) && negb (is_shim_resize e))
                         t = true) as Hdrop.
      { intros t. apply forallb_weaken. intros e.
        destruct (is_info_log e), (is_dlclose e), (is_shim_resize e); auto. }
      rewrite !forallb_app, (Hdrop _ Hk1), (Hdrop _ (Hk2 _ _)). reflexivity.
    + split; [split; [intros H; now contradiction H | intros [_ H]; discriminate]|].
      split; [intros H; now contradiction H|].
      intros _. destruct (Hd (object (Initialize E B versions error
                                        (object (LoadModule E c h))
                                        (rev_append (events (LoadModule E c h)) h)))
                             (rev_append
                                (events (Initialize E B versions error
                                           (object (LoadModule E c h))
                                           (rev_append (events (LoadModule E c h)) h)))
                                (rev_append (events (LoadModule E c h)) h)))
        as (Hn & pre & Hpre).
      split.
      * rewrite !existsb_app, Hn, (Hno _ Hk1), (Hno _ (Hk2 _ _)). reflexivity.
      * rewrite Hpre. eexists. rewrite !app_assoc. reflexivity.
  - cbn [fst snd].
    split; [split; [intros H; now contradiction H | intros [H _]; discriminate]|].
    split; [intros H; now contradiction H|].
    intros _.
    destruct (Hd (object (LoadModule E c h))
                 (rev_append (events (LoadModule E c h)) h))
      as (Hn & pre & Hpre).
    split.
    + rewrite existsb_app, Hn, (Hno _ Hk1). reflexivity.
    + rewrite Hpre. eexists. rewrite app_assoc. reflexivity.
Qed.

End HooksAndLoader.

(** ** The further properties at work on the sample worlds *)

Example whole_life_in_the_good_world :
  lifetime Sample.good Sample.base_class Sample.window Sample.unset
    [Sample.v33] Sample.error
    [Op_ResizeSurface 1280 896; Op_Base (Sample.surface_script Sample.error)] []
  = [Ev_dlopen "libwayland-egl.so.1" 258 0x7000;
     Ev_dlsym 0x7000 "wl_egl_window_create" 0x7100;
     Ev_dlsym 0x7000 "wl_egl_window_destroy" 0x7200;
     Ev_dlsym 0x7000 "wl_egl_window_resize" 0x7300;
     Ev_Base (BC_Initialize [Sample.v33] 0xEE);
     Ev_CheckExtension "EGL_KHR_platform_wayland" "EGL_EXT_platform_wayland"
       true;
     Ev_eglGetPlatformDisplay 0x31D8 0xC000 0 0xD15;
     Ev_wl_egl_window_create 0x7100 0xA000 640 448 0x9000;
     Ev_eglCreatePlatformWindowSurface 0xD15 0 0x9000 0 0x5F00;
     Ev_Console_WriteLn "EGL Platform: Wayland";
     Ev_wl_egl_window_resize 0x7300 0x9000 1280 896 0 0;
     Ev_Base (BC_ResizeSurface 1280 896);
     Ev_wl_egl_window_destroy 0x7200 0x9000;
     Ev_wl_egl_window_create 0x7100 0xA000 640 448 0x9001;
     Ev_eglCreatePlatformWindowSurface 0xD15 0 0x9001 0 0x5F00;
     Ev_wl_egl_window_destroy 0x7200 0x9001;
     Ev_dlclose 0x7000;
     Ev_Base BC_Destructor].
Proof. reflexivity. Qed.

Lemma failed_shim_creation_skips_platform_layer_witness :
  shim_answer Sample.no_shim Sample.live [] = nullptr
  /\ events (CreatePlatformSurface Sample.no_shim 0 0 Sample.error
               Sample.live [])
     = [Ev_wl_egl_window_destroy 0x7200 0x9000;
        Ev_wl_egl_window_create 0x7100 0xA000 640 448 0;
        Ev_Error_SetString 0xEE "wl_egl_window_create() failed"]
  /\ m_wl_window (object (CreatePlatformSurface Sample.no_shim 0 0
                            Sample.error Sample.live [])) = nullptr.
Proof.
  assert (shim_answer Sample.no_shim Sample.live [] = nullptr) as Hshim
    by reflexivity.
  destruct (failed_shim_creation_skips_platform_layer Sample.no_shim 0 0
              Sample.error Sample.live [] Hshim) as (_ & Hnull & Hev & _).
  split; [exact Hshim|]. split; [exact Hev | exact Hnull].
Defined.

Lemma surface_returned_iff_window_held_witness :
  result (CreatePlatformSurface Sample.good 0 0 Sample.error Sample.live [])
  <> EGL_NO_SURFACE
  /\ m_wl_window (object (CreatePlatformSurface Sample.good 0 0 Sample.error
                            Sample.live []))
     = shim_answer Sample.good Sample.live [].
Proof.
  assert (result (CreatePlatformSurface Sample.good 0 0 Sample.error
                    Sample.live []) <> EGL_NO_SURFACE) as Hsurface
    by (vm_compute; discriminate).
  destruct (surface_returned_iff_window_held Sample.good 0 0 Sample.error
              Sample.live []) as (_ & Hwindow & _).
  split; [exact Hsurface | exact (proj1 (Hwindow Hsurface))].
Defined.

Lemma CreatePlatformSurface_reports_iff_it_fails_witness :
  existsb is_eglGetError
    (events (CreatePlatformSurface Sample.no_surface 0 0 Sample.error
               Sample.live [])) = true
  /\ shim_answer Sample.no_surface Sample.live [] <> nullptr
  /\ surface_answer Sample.no_surface 0 0 Sample.live [] = EGL_NO_SURFACE.
Proof.
  assert (existsb is_eglGetError
            (events (CreatePlatformSurface Sample.no_surface 0 0 Sample.error
                       Sample.live [])) = true) as Hasked by reflexivity.
  destruct (CreatePlatformSurface_reports_iff_it_fails Sample.no_surface 0 0
              Sample.error Sample.live []) as (_ & _ & _ & Hwhy).
  split; [exact Hasked | exact (Hwhy Hasked)].
Defined.

Lemma GetPlatformDisplay_outcome_witness :
  result (GetPlatformDisplay Sample.good Sample.base_class 0 Sample.error
            Sample.live []) <> EGL_NO_DISPLAY
  /\ events (GetPlatformDisplay Sample.good Sample.base_class 0 Sample.error
               Sample.live [])
     = [Ev_CheckExtension "EGL_KHR_platform_wayland"
          "EGL_EXT_platform_wayland" true;
        Ev_eglGetPlatformDisplay 0x31D8 0xC000 0 0xD15].
Proof.
  assert (result (GetPlatformDisplay Sample.good Sample.base_class 0
                    Sample.error Sample.live []) <> EGL_NO_DISPLAY) as Hdpy
    by (vm_compute; discriminate).
  destruct (GetPlatformDisplay_outcome Sample.good Sample.base_class 0
              Sample.error Sample.live []) as (_ & _ & _ & Hev).
  split; [exact Hdpy | exact (Hev Hdpy)].
Defined.

Lemma LoadModule_requests_witness :
  (opened_library Sample.no_library [] = nullptr
   /\ m_wl_egl_window_destroy (object (LoadModule Sample.no_library
                                         Sample.live []))
      = m_wl_egl_window_destroy Sample.live)
  /\ (opened_library Sample.no_resize_symbol [] <> nullptr
      /\ filter is_loader_call
           (events (LoadModule Sample.no_resize_symbol Sample.live []))
         = [Ev_dlopen "libwayland-egl.so.1" 258 0x7000;
            Ev_dlsym 0x7000 "wl_egl_window_create" 0x7100;
            Ev_dlsym 0x7000 "wl_egl_window_destroy" 0x7200;
            Ev_dlsym 0x7000 "wl_egl_window_resize" 0]).
Proof.
  split.
  - assert (opened_library Sample.no_library [] = nullptr) as Hclosed
      by reflexivity.
    destruct (proj1 (LoadModule_requests Sample.no_library Sample.live [])
                Hclosed) as (_ & _ & _ & _ & Hdestroy & _).
    split; [exact Hclosed | exact Hdestroy].
  - assert (opened_library Sample.no_resize_symbol [] <> nullptr) as Hopen
      by (vm_compute; discriminate).
    destruct (proj2 (LoadModule_requests Sample.no_resize_symbol Sample.live [])
                Hopen) as (Hasked & _).
    split; [exact Hopen | exact Hasked].
Defined.

Lemma LoadModule_overwrites_held_library_witness :
  m_wl_module Sample.live <> nullptr
  /\ libraries_after (library_held Sample.live)
       (events (LoadModule Sample.no_library Sample.live [])
        ++ events (destroy (object (LoadModule Sample.no_library Sample.live []))
                     []))
     = [0x7000].
Proof.
  assert (m_wl_module Sample.live <> nullptr) as Hheld
    by (vm_compute; discriminate).
  destruct (@LoadModule_overwrites_held_library Sample.no_library Sample.live
              [] [] Hheld) as (_ & Hleft).
  split; [exact Hheld | exact Hleft].
Defined.

Lemma Create_returns_iff_both_steps_succeed_witness :
  fst (Create Sample.good Sample.base_class Sample.window Sample.unset
         [Sample.v33] Sample.error []) <> None
  /\ forallb (fun e => negb (is_dlclose e) && negb (is_shim_resize e))
       (snd (Create Sample.good Sample.base_class Sample.window Sample.unset
               [Sample.v33] Sample.error [])) = true.
Proof.
  assert (fst (Create Sample.good Sample.base_class Sample.window Sample.unset
                 [Sample.v33] Sample.error []) <> None) as Hmade
    by (vm_compute; discriminate).
  destruct (Create_returns_iff_both_steps_succeed Sample.good
              Sample.base_class Sample.window Sample.unset [Sample.v33]
              Sample.error []) as (_ & Hgood & _).
  split; [exact Hmade | exact (proj2 (Hgood Hmade))].
Defined.

(** ** Sizes with the top bit set *)

Example wide_window_reaches_shim_create_wrapped :
  events (CreatePlatformSurface Sample.good 0 0 Sample.error Sample.wide_live [])
  = [Ev_wl_egl_window_destroy 0x7200 0x9000;
     Ev_wl_egl_window_create 0x7100 0xA000 (-1) (-2147483648) 0x9000;
     Ev_eglCreatePlatformWindowSurface 0xD15 0 0x9000 0 0x5F00].
Proof. reflexivity. Qed.

(** C7, as it was stated, fails for sizes from [2^31] on: the shim resize
    function receives the sizes wrapped to [int], not [(w, h, 0, 0)]. *)
Lemma wide_resize_reaches_shim_wrapped :
  let evs :=
    events (ResizeSurface Sample.good Sample.base_class 4294967295 2147483648
              Sample.live []) in
  evs = [Ev_wl_egl_window_resize 0x7300 0x9000 (-1) (-2147483648) 0 0;
         Ev_Base (BC_ResizeSurface 4294967295 2147483648)]
  /\ ~ In (Ev_wl_egl_window_resize 0x7300 0x9000 4294967295 2147483648 0 0)
          evs.
Proof.
  cbv zeta. split; [reflexivity|].
  intros [Hin | [Hin | []]]; discriminate Hin.
Qed.

Lemma ResizeSurface_resizes_shim_then_base_witness :
  0 <= 1280 < 2 ^ 31
  /\ 0 <= 896 < 2 ^ 31
  /\ (exists rest,
         events (ResizeSurface Sample.good Sample.base_class 1280 896
                   Sample.live [])
         = [Ev_wl_egl_window_resize 0x7300 0x9000 1280 896 0 0]
           ++ Ev_Base (BC_ResizeSurface 1280 896) :: rest
         /\ forallb (fun e => negb (is_shim_resize e)) rest = true)
  /\ 2 ^ 31 <= 4294967295 < 2 ^ 32
  /\ int_of_u32 4294967295 = 4294967295 - 2 ^ 32.
Proof.
  assert (0 <= 1280 < 2 ^ 31) as Hw by lia.
  assert (0 <= 896 < 2 ^ 31) as Hh by lia.
  assert (2 ^ 31 <= 4294967295 < 2 ^ 32) as Hwide by lia.
  destruct (ResizeSurface_resizes_shim_then_base Sample.good Sample.base_class
              1280 896 Sample.live []) as (_ & Hsmall & Hlarge).
  split; [exact Hw|]. split; [exact Hh|].
  split; [exact (Hsmall Hw Hh)|].
  split; [exact Hwide | exact (Hlarge 4294967295 Hwide)].
Defined.
